(** * django_to_gorm: the scanning and translation engine of [convert]

    A shallow embedding of [src/django_to_gorm.py].  The accumulated
    variables of [convert] become one record that is threaded through a
    step function (one step per input line); [sys.exit()] and the run-time
    errors that the source leaves uncaught become an error result.

    Text is modelled by [string] over ASCII: [lower], [upper],
    [capitalize] and [strip] act as Python's do on ASCII text. *)

From Stdlib Require Import Bool Arith List Lia Ascii String DecimalString.
Import ListNotations.
Open Scope bool_scope.
Open Scope list_scope.
Open Scope string_scope.

(** ** Python's string methods *)

Module Py.

Definition tab : string := String (ascii_of_nat 9) "".
Definition newline : ascii := ascii_of_nat 10.
Definition nl : string := String newline "".
Definition dq : string := String (ascii_of_nat 34) "".

(** [s.startswith(p)] *)
Fixpoint startswith (p s : string) : bool :=
  match p, s with
  | "", _ => true
  | String a p', String b s' => Ascii.eqb a b && startswith p' s'
  | String _ _, "" => false
  end.

(** [s.endswith(p)] *)
Fixpoint endswith (p s : string) : bool :=
  String.eqb s p ||
  match s with
  | "" => false
  | String _ s' => endswith p s'
  end.

(** [sub in s] *)
Fixpoint contains (sub s : string) : bool :=
  startswith sub s ||
  match s with
  | "" => false
  | String _ s' => contains sub s'
  end.

(** Whitespace removed by [str.strip()]: tab, line feed, vertical tab,
    form feed, carriage return, the four separators 28..31, and space. *)
Definition is_space (c : ascii) : bool :=
  let n := nat_of_ascii c in
  ((9 <=? n)%nat && (n <=? 13)%nat) || ((28 <=? n)%nat && (n <=? 32)%nat).

Fixpoint lstrip_by (p : ascii -> bool) (s : string) : string :=
  match s with
  | "" => ""
  | String c s' => if p c then lstrip_by p s' else s
  end.

Fixpoint rstrip_by (p : ascii -> bool) (s : string) : string :=
  match s with
  | "" => ""
  | String c s' =>
      match rstrip_by p s' with
      | "" => if p c then "" else String c ""
      | r => String c r
      end
  end.

Definition strip_by (p : ascii -> bool) (s : string) : string :=
  rstrip_by p (lstrip_by p s).

(** [s.strip()] *)
Definition strip : string -> string := strip_by is_space.

(** [s.strip(chars)] *)
Definition strip_chars (chars : string) : string -> string :=
  strip_by (fun c => contains (String c "") chars).

(** [s.split(sep)] for a separator of one character, which is what every
    call of [split] in the source passes. *)
Fixpoint split (sep : ascii) (s : string) : list string :=
  match s with
  | "" => [""]
  | String c s' =>
      if Ascii.eqb c sep then "" :: split sep s'
      else match split sep s' with
           | h :: t => String c h :: t
           | [] => [String c ""]
           end
  end.

(** [sep.join(l)] *)
Fixpoint join (sep : string) (l : list string) : string :=
  match l with
  | [] => ""
  | [x] => x
  | x :: l' => x ++ sep ++ join sep l'
  end.

Definition unlines : list string -> string := join nl.

(** [s.replace(old, new)]: the occurrences of [old] are found from the left
    and do not overlap.  [skip] counts the characters of a matched
    occurrence that are still to be passed over. *)
Fixpoint replace_from (old new : string) (skip : nat) (s : string) : string :=
  match s with
  | "" => ""
  | String c s' =>
      match skip with
      | S k => replace_from old new k s'
      | O =>
          if startswith old s
          then new ++ replace_from old new (String.length old - 1) s'
          else String c (replace_from old new 0 s')
      end
  end.

Fixpoint interleave (new s : string) : string :=
  match s with
  | "" => ""
  | String c s' => String c (new ++ interleave new s')
  end.

Definition replace (old new s : string) : string :=
  match old with
  | "" => new ++ interleave new s
  | _ => replace_from old new 0 s
  end.

Definition lower_char (c : ascii) : ascii :=
  let n := nat_of_ascii c in
  if (65 <=? n)%nat && (n <=? 90)%nat then ascii_of_nat (n + 32) else c.

Definition upper_char (c : ascii) : ascii :=
  let n := nat_of_ascii c in
  if (97 <=? n)%nat && (n <=? 122)%nat then ascii_of_nat (n - 32) else c.

Fixpoint map_chars (f : ascii -> ascii) (s : string) : string :=
  match s with
  | "" => ""
  | String c s' => String (f c) (map_chars f s')
  end.

(** [s.lower()], [s.upper()], [s.capitalize()] *)
Definition lower : string -> string := map_chars lower_char.
Definition upper : string -> string := map_chars upper_char.
Definition capitalize (s : string) : string :=
  match s with
  | "" => ""
  | String c s' => String (upper_char c) (lower s')
  end.

(** ['{0}'.format(n)] for a non-negative integer *)
Definition str_of_nat (n : nat) : string :=
  NilZero.string_of_uint (Nat.to_uint n).

End Py.
Import Py.

(** ** Module constants *)

(** [TYPE_MAP.get(field_type, None)] *)
Definition TYPE_MAP (field_type : string) : option string :=
  if String.eqb field_type "BooleanField" then Some "bool"
  else if String.eqb field_type "IntegerField" then Some "int"
  else if String.eqb field_type "BigIntegerField" then Some "int64"
  else if String.eqb field_type "CharField" then Some "string"
  else if String.eqb field_type "TextField" then Some "string"
  else if String.eqb field_type "DateTimeField" then Some "time.Time"
  else if String.eqb field_type "NullBooleanField" then Some "sql.NullBool"
  else if String.eqb field_type "BinaryField" then Some "byte[]"
  else None.

Definition IMPORTS : string :=
  unlines
    [ "package main";
      "";
      "import";
      "(";
      tab ++ dq ++ "gorm.io/gorm" ++ dq;
      tab ++ "// Enable one from below as needed, postgres included as default";
      tab ++ dq ++ "gorm.io/driver/postgres" ++ dq;
      tab ++ "// " ++ dq ++ "gorm.io/driver/mysql" ++ dq;
      tab ++ "// " ++ dq ++ "gorm.io/driver/sqlite" ++ dq;
      tab ++ dq ++ "time" ++ dq;
      tab ++ dq ++ "fmt" ++ dq;
      tab ++ dq ++ "database/sql" ++ dq;
      ")";
      "";
      "" ].

Definition TABLE_HELPER : string :=
  unlines
    [ "";
      "type Tabler interface {";
      tab ++ "TableName() string";
      "}";
      "";
      "" ].

Definition USER_MODEL : string :=
  unlines
    [ "";
      "type User struct {";
      tab ++ "ID" ++ tab ++ tab ++ "        int64" ++ tab ++ tab ++ "`gorm:" ++ dq ++ "primaryKey" ++ dq ++ "`";
      tab ++ "Email" ++ tab ++ "        string" ++ tab ++ "    `gorm:" ++ dq ++ "column:email" ++ dq ++ "`";
      tab ++ "First_name" ++ tab ++ "    string" ++ tab ++ "    `gorm:" ++ dq ++ "column:first_name" ++ dq ++ "`";
      tab ++ "Last_name" ++ tab ++ "    string" ++ tab ++ "    `gorm:" ++ dq ++ "column:last_name" ++ dq ++ "`";
      tab ++ "Is_superuser" ++ tab ++ "bool        `gorm:" ++ dq ++ "column:is_superuser" ++ dq ++ "`";
      tab ++ "Is_staff" ++ tab ++ "    bool        `gorm:" ++ dq ++ "column:is_staff" ++ dq ++ "`";
      tab ++ "Date_joined     time.Time   `gorm:" ++ dq ++ "column:date_joined" ++ dq ++ "`";
      "}";
      "";
      "func(User) TableName() string {";
      tab ++ "return " ++ dq ++ "auth_user" ++ dq;
      "}";
      "";
      "" ].

Definition GROUP_MODEL : string :=
  unlines
    [ "";
      "type Group struct {";
      tab ++ "ID" ++ tab ++ tab ++ "        int64" ++ tab ++ tab ++ "`gorm:" ++ dq ++ "primaryKey" ++ dq ++ "`";
      tab ++ "Name" ++ tab ++ "        string" ++ tab ++ "    `gorm:" ++ dq ++ "column:name" ++ dq ++ "`";
      "}";
      "";
      "func(Group) TableName() string {";
      tab ++ "return " ++ dq ++ "auth_group" ++ dq;
      "}";
      "";
      "" ].

Definition HELPER_REF : string :=
  unlines
    [ "";
      "//";
      "// EXAMPLE / help / reference, update this with your DB type / credentials.";
      "//";
      "func main(){";
      "    dsn := " ++ dq ++ "host=localhost user=USER password=PWD dbname=DBNAME port=5432 TimeZone=Europe/London" ++ dq;
      "    db, err := gorm.Open(postgres.Open(dsn), &gorm.Config{})";
      "    if err != nil {";
      "        fmt.Printf(" ++ dq ++ "Error connecting: %s\n" ++ dq ++ ", err)";
      "    }";
      "    ";
      "    var user User";
      "    db.First(&user)";
      "    fmt.Printf(" ++ dq ++ "First email in User table: %s\n" ++ dq ++ ", user.Email)";
      "}" ].

(** ** The variables of [convert] *)

Record state : Type := mkState {
  out_lines : list string;
  current_model : list string;
  last_model_closed : bool;
  got_custom_tables : bool;
  in_model_def : bool;
  model_name : string;
  default_table_name : string;
  table_name : string;
  custom_table_name : bool;
  found_user_table : bool;
  found_group_table : bool;
  prev_line : string;
  lines : nat;
  errors : list string
}.

Definition set_out_lines (v : list string) (s : state) : state :=
  mkState v (current_model s) (last_model_closed s) (got_custom_tables s)
    (in_model_def s) (model_name s) (default_table_name s) (table_name s)
    (custom_table_name s) (found_user_table s) (found_group_table s)
    (prev_line s) (lines s) (errors s).
Definition set_current_model (v : list string) (s : state) : state :=
  mkState (out_lines s) v (last_model_closed s) (got_custom_tables s)
    (in_model_def s) (model_name s) (default_table_name s) (table_name s)
    (custom_table_name s) (found_user_table s) (found_group_table s)
    (prev_line s) (lines s) (errors s).
Definition set_last_model_closed (v : bool) (s : state) : state :=
  mkState (out_lines s) (current_model s) v (got_custom_tables s)
    (in_model_def s) (model_name s) (default_table_name s) (table_name s)
    (custom_table_name s) (found_user_table s) (found_group_table s)
    (prev_line s) (lines s) (errors s).
Definition set_got_custom_tables (v : bool) (s : state) : state :=
  mkState (out_lines s) (current_model s) (last_model_closed s) v
    (in_model_def s) (model_name s) (default_table_name s) (table_name s)
    (custom_table_name s) (found_user_table s) (found_group_table s)
    (prev_line s) (lines s) (errors s).
Definition set_in_model_def (v : bool) (s : state) : state :=
  mkState (out_lines s) (current_model s) (last_model_closed s)
    (got_custom_tables s) v (model_name s) (default_table_name s)
    (table_name s) (custom_table_name s) (found_user_table s)
    (found_group_table s) (prev_line s) (lines s) (errors s).
Definition set_model_name (v : string) (s : state) : state :=
  mkState (out_lines s) (current_model s) (last_model_closed s)
    (got_custom_tables s) (in_model_def s) v (default_table_name s)
    (table_name s) (custom_table_name s) (found_user_table s)
    (found_group_table s) (prev_line s) (lines s) (errors s).
Definition set_default_table_name (v : string) (s : state) : state :=
  mkState (out_lines s) (current_model s) (last_model_closed s)
    (got_custom_tables s) (in_model_def s) (model_name s) v (table_name s)
    (custom_table_name s) (found_user_table s) (found_group_table s)
    (prev_line s) (lines s) (errors s).
Definition set_table_name (v : string) (s : state) : state :=
  mkState (out_lines s) (current_model s) (last_model_closed s)
    (got_custom_tables s) (in_model_def s) (model_name s)
    (default_table_name s) v (custom_table_name s) (found_user_table s)
    (found_group_table s) (prev_line s) (lines s) (errors s).
Definition set_custom_table_name (v : bool) (s : state) : state :=
  mkState (out_lines s) (current_model s) (last_model_closed s)
    (got_custom_tables s) (in_model_def s) (model_name s)
    (default_table_name s) (table_name s) v (found_user_table s)
    (found_group_table s) (prev_line s) (lines s) (errors s).
Definition set_found_user_table (v : bool) (s : state) : state :=
  mkState (out_lines s) (current_model s) (last_model_closed s)
    (got_custom_tables s) (in_model_def s) (model_name s)
    (default_table_name s) (table_name s) (custom_table_name s) v
    (found_group_table s) (prev_line s) (lines s) (errors s).
Definition set_found_group_table (v : bool) (s : state) : state :=
  mkState (out_lines s) (current_model s) (last_model_closed s)
    (got_custom_tables s) (in_model_def s) (model_name s)
    (default_table_name s) (table_name s) (custom_table_name s)
    (found_user_table s) v (prev_line s) (lines s) (errors s).
Definition set_prev_line (v : string) (s : state) : state :=
  mkState (out_lines s) (current_model s) (last_model_closed s)
    (got_custom_tables s) (in_model_def s) (model_name s)
    (default_table_name s) (table_name s) (custom_table_name s)
    (found_user_table s) (found_group_table s) v (lines s) (errors s).
Definition set_lines (v : nat) (s : state) : state :=
  mkState (out_lines s) (current_model s) (last_model_closed s)
    (got_custom_tables s) (in_model_def s) (model_name s)
    (default_table_name s) (table_name s) (custom_table_name s)
    (found_user_table s) (found_group_table s) (prev_line s) v (errors s).
Definition set_errors (v : list string) (s : state) : state :=
  mkState (out_lines s) (current_model s) (last_model_closed s)
    (got_custom_tables s) (in_model_def s) (model_name s)
    (default_table_name s) (table_name s) (custom_table_name s)
    (found_user_table s) (found_group_table s) (prev_line s) (lines s) v.

(** [current_model.append(x)] and [errors.append(x)] *)
Definition append_model (x : string) (s : state) : state :=
  set_current_model (current_model s ++ [x])%list s.
Definition append_error (x : string) (s : state) : state :=
  set_errors (errors s ++ [x])%list s.

(** The values of lines 170-184. *)
Definition initial : state :=
  mkState [] [] false false false "" "" "" false false false "" 1 [].

(** ** Ways a run stops early

    [SysExit] is the [sys.exit()] of line 317; [IndexError] is the
    exception of line 225, which no handler catches. *)

Inductive failure : Type := SysExit | IndexError.

Inductive result (A : Type) : Type :=
| Ok (a : A)
| Stop (f : failure).
Arguments Ok {A} a.
Arguments Stop {A} f.

Definition bind {A B : Type} (r : result A) (k : A -> result B) : result B :=
  match r with
  | Ok a => k a
  | Stop f => Stop f
  end.

Notation "x <- r ;; k" := (bind r (fun x => k))
  (at level 61, r at next level, right associativity).

(** ** [__close_model_def] (lines 186-202) *)

Definition accessor_lines (st : state) : list string :=
  [ "func (" ++ model_name st ++ ") TableName() string {";
    tab ++ "return " ++ dq ++ table_name st ++ dq;
    "}";
    "" ].

Definition close_model_def (st : state) : state :=
  let cm := (current_model st ++ ["}"; ""])%list in
  if custom_table_name st then
    let cm := (cm ++ accessor_lines st)%list in
    let new_current_model :=
      map (replace (default_table_name st) (table_name st)) cm in
    set_out_lines (out_lines st ++ new_current_model)%list
      (set_current_model cm st)
  else
    set_out_lines (out_lines st ++ cm)%list (set_current_model cm st).

(** ** Translation of one field line (lines 251-317) *)

(** [field_parts[1].strip().split('.')[1]]; [None] when an index is out
    of range. *)
Definition constructor_call (field_parts : list string) : option string :=
  match nth_error field_parts 1 with
  | Some rhs => nth_error (split "." (strip rhs)) 1
  | None => None
  end.

(** Line 256; [None] is the exception that the outer handler catches. *)
Definition field_type_of (field_parts : list string) : option string :=
  match constructor_call field_parts with
  | Some call => Some (strip (hd "" (split "(" call)))
  | None => None
  end.

(** Lines 267-270, the inner handler included. *)
Definition fkeymodel_of (field_parts : list string) : string :=
  match constructor_call field_parts with
  | Some call =>
      match nth_error (split "(" call) 1 with
      | Some args =>
          strip_chars ")" (strip (hd "" (split "," (strip args))))
      | None => "########"
      end
  | None => "########"
  end.

Definition is_pk_name (field_name : string) : bool :=
  String.eqb field_name "id" || String.eqb field_name "pk" ||
  String.eqb field_name "ID" || String.eqb field_name "PK".

Definition pk_line (field_name : string) : string :=
  tab ++ upper field_name ++ tab ++ tab ++ "int64" ++ tab ++ tab ++
  "`gorm:" ++ dq ++ "primaryKey" ++ dq ++ "`".

Definition scalar_line (field_name gotype : string) : string :=
  tab ++ capitalize field_name ++ tab ++ tab ++ gotype ++ tab ++
  "`gorm:" ++ dq ++ "column:" ++ field_name ++ dq ++ "`".

Definition self_id_field (field_name fkey : string) : string :=
  tab ++ capitalize field_name ++ "ID" ++ tab ++ tab ++ "int64" ++ tab ++ fkey.

Definition fkey_field (field_name fkeymodel : string) : string :=
  tab ++ capitalize field_name ++ tab ++ tab ++ fkeymodel.

Definition foreignkey_tag (field_name : string) : string :=
  "`gorm:" ++ dq ++ "foreignKey:" ++ field_name ++
  "_id;association_foreignkey:id" ++ dq ++ "`".

Definition onetoone_tag (field_name : string) : string :=
  "`gorm:" ++ dq ++ "foreignKey:" ++ field_name ++ "_id" ++ dq ++ "`".

Definition many2many_tag (table_name field_name : string) : string :=
  "`gorm:" ++ dq ++ "many2many:" ++ table_name ++ "_" ++ field_name ++
  ";joinForeignKey:" ++ table_name ++ "_id" ++ dq ++ "`".

Definition many2many_line (field_name fkeymodel fkey : string) : string :=
  tab ++ capitalize field_name ++ tab ++ tab ++ "[]" ++ fkeymodel ++ tab ++ fkey.

Definition translate_field (st : state) (l : string) : result state :=
  let field_parts := split "=" l in
  let field_name := strip (hd "" field_parts) in
  match field_type_of field_parts with
  | Some field_type =>
      if is_pk_name field_name && contains "primary_key" l then
        Ok (append_model (pk_line field_name) st)
      else
        match TYPE_MAP field_type with
        | Some gotype => Ok (append_model (scalar_line field_name gotype) st)
        | None =>
            let fkeymodel := fkeymodel_of field_parts in
            if String.eqb field_type "ForeignKey" then
              Ok (append_model (fkey_field field_name fkeymodel)
                    (append_model
                       (self_id_field field_name (foreignkey_tag field_name))
                       st))
            else if String.eqb field_type "ManyToManyField" then
              Ok (append_model
                    (many2many_line field_name fkeymodel
                       (many2many_tag (table_name st) field_name))
                    (append_model
                       (tab ++ "\ !! NOTE: m2m key relationship/name may not work")
                       st))
            else if String.eqb field_type "OneToOneField" then
              Ok (append_model (fkey_field field_name fkeymodel)
                    (append_model
                       (self_id_field field_name (onetoone_tag field_name))
                       st))
            else if contains "getLogger" l then Ok st
            else if endswith "," (prev_line st) || endswith "\" (prev_line st)
            then Ok st
            else
              Ok (append_model
                    (tab ++ "// !! unknown type in line " ++
                     str_of_nat (lines st) ++ ", original: " ++ l)
                    (append_error
                       (str_of_nat (lines st) ++ ": Unknown/unhandled line: " ++
                        field_type)
                       st))
        end
  | None =>
      if contains "TreeForeignKey" l then
        Ok (append_model
              (tab ++ "// !! Unhandled item in line " ++
               str_of_nat (lines st) ++ ", original: " ++ l)
              (append_error (str_of_nat (lines st) ++ ": " ++ l) st))
      else Stop SysExit
  end.

(** ** One iteration of the loop over [in_lines] (lines 204-320) *)

(** Line 205: the raw line starts an unindented [def]. *)
Definition is_def (raw : string) : bool := startswith "def " raw.

(** Line 217: the stripped line is a class header ending in [Model):]. *)
Definition is_class_header (l : string) : bool :=
  startswith "class" l && endswith "Model):" l.

(** Line 239: the stripped line assigns [db_table] right after a line
    that holds [class Meta:]. *)
Definition is_db_table (prev l : string) : bool :=
  contains "db_table" l && contains "=" l && negb (startswith "#" l) &&
  contains "class Meta:" prev.

(** Line 243: the right-hand side without its quote marks. *)
Definition unquote (rhs : string) : string :=
  replace "'" ""
    (replace dq "" (replace "u'" "" (replace ("u" ++ dq) "" (strip rhs)))).

Definition close_and_reset (st : state) : state :=
  set_current_model [] (set_last_model_closed true (close_model_def st)).

Definition open_model (name : string) (st : state) : state :=
  let st := set_model_name name st in
  let st := if String.eqb name "User" then set_found_user_table true st else st in
  let st := if String.eqb name "Group" then set_found_group_table true st else st in
  let st := set_table_name ("app_" ++ lower name ++ "s") st in
  let st := set_default_table_name (table_name st) st in
  let st := set_custom_table_name false st in
  append_model ("type " ++ name ++ " struct {") st.

(** Line 225: [l.split(' ')[1].split('(')[0]]; [None] when [l] holds no
    space, where the source raises [IndexError]. *)
Definition model_name_of (l : string) : option string :=
  match nth_error (split " " l) 1 with
  | Some tok => Some (hd "" (split "(" tok))
  | None => None
  end.

(** Lines 319-320. *)
Definition advance (l : string) (st : state) : state :=
  set_lines (lines st + 1) (set_prev_line l st).

Definition step (st : state) (raw : string) : result state :=
  let st :=
    if is_def raw && in_model_def st
    then close_and_reset (set_in_model_def false st)
    else st in
  let l := strip raw in
  st <- (if is_class_header l then
           let st := if in_model_def st then close_and_reset st else st in
           let st := set_last_model_closed false (set_in_model_def true st) in
           match model_name_of l with
           | Some name => Ok (open_model name st)
           | None => Stop IndexError
           end
         else if in_model_def st then
           if is_db_table (prev_line st) l then
             match nth_error (split "=" l) 1 with
             | Some rhs =>
                 Ok (set_table_name (unquote rhs)
                       (set_got_custom_tables true
                          (set_custom_table_name true st)))
             | None => Stop IndexError
             end
           else if startswith (dq ++ dq ++ dq) l then
             Ok (append_model
                   (tab ++ "// " ++ replace (dq ++ dq ++ dq) "" l) st)
           else if startswith "#" l then
             Ok (append_model (tab ++ "// " ++ replace "#" "" l) st)
           else if contains "=" l && contains "models." l then
             translate_field st l
           else Ok st
         else Ok st) ;;
  Ok (advance l st).

Fixpoint scan (st : state) (in_lines : list string) : result state :=
  match in_lines with
  | [] => Ok st
  | raw :: rest => st' <- step st raw ;; scan st' rest
  end.

(** ** [convert] from line 170 on, for [infile] given as a list of lines *)

Definition out_prefix (include_helpers auto_add_user_model
                       auto_add_group_model : bool) (st : state) : list string :=
  ((if include_helpers then split newline IMPORTS else []) ++
   (if got_custom_tables st then split newline TABLE_HELPER else []) ++
   (if negb (found_user_table st) && auto_add_user_model
    then split newline USER_MODEL else []) ++
   (if negb (found_group_table st) && auto_add_group_model
    then split newline GROUP_MODEL else []))%list.

(** The scan followed by the close of line 323. *)
Definition finish (st : state) : state :=
  if negb (last_model_closed st) then close_model_def st else st.

(** The final value of [out_lines] (line 343) and of [errors]. *)
Definition convert_lines (in_lines : list string)
    (include_helpers auto_add_user_model auto_add_group_model : bool)
  : result (list string * list string) :=
  st <- scan initial in_lines ;;
  let st := finish st in
  Ok ((out_prefix include_helpers auto_add_user_model auto_add_group_model st
       ++ out_lines st)%list,
      errors st).

(** The text written to [outfile] (lines 345-348) and the content of the
    [.errors] file, when one is written (lines 352-354). *)
Definition convert (in_lines : list string)
    (include_helpers auto_add_user_model auto_add_group_model : bool)
  : result (string * option string) :=
  r <- convert_lines in_lines include_helpers auto_add_user_model
         auto_add_group_model ;;
  Ok (join nl (fst r) ++ (if include_helpers then HELPER_REF else ""),
      match snd r with
      | [] => None
      | errs => Some (join nl errs)
      end).

(** ** Predicates of the statements *)

(** A raw line that, read while a declaration is open and [prev] is the
    previous stripped line, reaches the field translation of line 251. *)
Definition is_field_line (prev raw : string) : bool :=
  let l := strip raw in
  negb (is_def raw) && negb (is_class_header l) && negb (is_db_table prev l) &&
  negb (startswith (dq ++ dq ++ dq) l) && negb (startswith "#" l) &&
  contains "=" l && contains "models." l.

(** The field name and the primary-key test of lines 253 and 257. *)
Definition field_name_of (l : string) : string := strip (hd "" (split "=" l)).
Definition is_pk_line (l : string) : bool :=
  is_pk_name (field_name_of l) && contains "primary_key" l.

(** The inner [try] of line 268 raises. *)
Definition fkeymodel_raises (field_parts : list string) : bool :=
  match constructor_call field_parts with
  | Some call =>
      match nth_error (split "(" call) 1 with
      | Some _ => false
      | None => true
      end
  | None => true
  end.

(** The raw line is a class header whose extracted name is [name]. *)
Definition declares (name raw : string) : bool :=
  is_class_header (strip raw) &&
  match model_name_of (strip raw) with
  | Some n => String.eqb n name
  | None => false
  end.

(** The blocks that [convert] puts before the declarations when no
    [db_table] was seen and neither [User] nor [Group] was declared. *)
Definition scaffolding (include_helpers auto_add_user_model
                        auto_add_group_model : bool) : list string :=
  ((if include_helpers then split newline IMPORTS else []) ++
   (if auto_add_user_model then split newline USER_MODEL else []) ++
   (if auto_add_group_model then split newline GROUP_MODEL else []))%list.


(** The default table name of line 232. *)
Definition default_name (name : string) : string := "app_" ++ lower name ++ "s".

(** The state after [added] went to the buffer of the declaration and
    [errs] to the list of errors. *)
Definition grow (added errs : list string) (st : state) : state :=
  set_errors (errors st ++ errs)%list
    (set_current_model (current_model st ++ added)%list st).

(** [st'] is [st] after one more line, [l] once stripped, was read inside
    the declaration: [added] went to the end of its buffer, [errs] to the
    end of the errors, the line is remembered and counted (lines 319-320),
    and every other variable is as it was. *)
Definition line_read (l : string) (added errs : list string)
    (st st' : state) : Prop :=
  current_model st' = (current_model st ++ added)%list /\
  errors st' = (errors st ++ errs)%list /\
  prev_line st' = l /\
  lines st' = lines st + 1 /\
  out_lines st' = out_lines st /\
  last_model_closed st' = last_model_closed st /\
  got_custom_tables st' = got_custom_tables st /\
  in_model_def st' = in_model_def st /\
  model_name st' = model_name st /\
  default_table_name st' = default_table_name st /\
  table_name st' = table_name st /\
  custom_table_name st' = custom_table_name st /\
  found_user_table st' = found_user_table st /\
  found_group_table st' = found_group_table st.

(** The state after lines 205-211. *)
Definition def_closed (raw : string) (st : state) : state :=
  if is_def raw && in_model_def st
  then close_and_reset (set_in_model_def false st)
  else st.

(** The first line of a declaration (line 235). *)
Definition type_line (name : string) : string := "type " ++ name ++ " struct {".

(** The lines, other than the first, that a declaration is made of: empty,
    or starting with a tab, a closing brace, or [func (]. *)
Definition basic_line (x : string) : bool :=
  String.eqb x "" || startswith tab x || startswith "}" x ||
  startswith "func (" x.

(** A line that belongs to neither default [User] declaration marker:
    never its [TableName] line, and not its first line unless the input
    declared [User] itself. *)
Definition not_default_user (found_user : bool) (x : string) : Prop :=
  x <> "func(User) TableName() string {" /\
  (found_user = false -> x <> "type User struct {").

(** What every state of a scan satisfies. *)
Definition tidy (st : state) : Prop :=
  Forall (fun x => basic_line x = true \/ x = type_line (model_name st))
    (current_model st) /\
  Forall (not_default_user (found_user_table st)) (out_lines st) /\
  contains " " (model_name st) = false /\
  (model_name st = "User" -> found_user_table st = true) /\
  (in_model_def st = true \/ custom_table_name st = true ->
   default_table_name st = default_name (model_name st)) /\
  (in_model_def st = false -> current_model st = []).

(** ** Notions of the further properties *)

(** A line that opens a [struct]. *)
Definition is_type_line (x : string) : bool := startswith "type " x.

(** The names that line 225 extracts from the class headers of the input,
    in the order of the input. *)
Definition declared_names (in_lines : list string) : list string :=
  flat_map
    (fun raw =>
       if is_class_header (strip raw) then
         match model_name_of (strip raw) with
         | Some name => [name]
         | None => []
         end
       else [])
    in_lines.

(** Every line sent to the output is a basic line or opens a [struct]. *)
Definition shaped (st : state) : Prop :=
  Forall (fun x => basic_line x = true \/ is_type_line x = true) (out_lines st).

(** The explicit table name, when there is one, holds no quote mark. *)
Definition unquoted (st : state) : Prop :=
  custom_table_name st = true ->
  contains "'" (table_name st) = false /\ contains dq (table_name st) = false.

(** As long as no [db_table] line was taken for the open declaration, the
    table name in force is the default one of line 232. *)
Definition default_in_force (st : state) : Prop :=
  in_model_def st = true -> custom_table_name st = false ->
  table_name st = default_name (model_name st).

(** * Properties *)

(** ** The string methods on examples *)

Example strip_example :
  strip ("   " ++ tab ++ "name = models.CharField()  " ++ nl) =
  "name = models.CharField()".
Proof. reflexivity. Qed.

Example split_example :
  split "=" "a = f(x=1)" = ["a "; " f(x"; "1)"] /\ split "," "" = [""].
Proof. split; reflexivity. Qed.

Example replace_example :
  replace "aa" "b" "aaa" = "ba" /\ replace "" "-" "ab" = "-a-b-" /\
  replace "#" "" "# a # b" = " a  b".
Proof. repeat split; reflexivity. Qed.

Example capitalize_example :
  capitalize "firstName" = "Firstname" /\ upper "pk" = "PK" /\
  lower "UserProfile" = "userprofile".
Proof. repeat split; reflexivity. Qed.

Example endswith_example :
  endswith "Model):" "class Foo(models.Model):" = true /\
  endswith "\" "x = models.CharField(\" = true /\
  endswith "," "" = false.
Proof. repeat split; reflexivity. Qed.

Example str_of_nat_example : str_of_nat 0 = "0" /\ str_of_nat 120 = "120".
Proof. split; reflexivity. Qed.

(** ** Booleans, lists and results *)

Lemma andb_true_split (a b : bool) : a && b = true -> a = true /\ b = true.
Proof. destruct a, b; auto. Qed.

Lemma negb_true_false (a : bool) : negb a = true -> a = false.
Proof. now destruct a. Qed.

Ltac split_andb :=
  repeat match goal with
    | H : _ && _ = true |- _ =>
        let H1 := fresh H in
        apply andb_true_split in H; destruct H as [H H1]
    | H : negb _ = true |- _ => apply negb_true_false in H
    end.

Lemma nth_error_second {A : Type} (a b : A) (t : list A) :
  nth_error (a :: b :: t) 1 = Some b.
Proof. reflexivity. Qed.

Lemma bind_ok {A B : Type} (r : result A) (k : A -> result B) (b : B) :
  (x <- r ;; k x) = Ok b -> exists a, r = Ok a /\ k a = Ok b.
Proof. destruct r as [a|f]; [intros H; now exists a | discriminate]. Qed.

(** ** Strings *)

Lemma append_nil_r (s : string) : s ++ "" = s.
Proof. induction s as [|c s IH]; cbn; [reflexivity|now rewrite IH]. Qed.

Lemma append_assoc (a b c : string) : (a ++ b) ++ c = a ++ b ++ c.
Proof. induction a as [|x a IH]; cbn; [reflexivity|now rewrite IH]. Qed.

Lemma length_append (a b : string) :
  String.length (a ++ b) = String.length a + String.length b.
Proof. induction a as [|x a IH]; cbn; [reflexivity|now rewrite IH]. Qed.

Lemma append_inv_tail (a b t : string) : a ++ t = b ++ t -> a = b.
Proof.
  revert b. induction a as [|x a IH]; intros [|y b] H; cbn in H.
  - reflexivity.
  - apply (f_equal String.length) in H. cbn in H. rewrite length_append in H. lia.
  - apply (f_equal String.length) in H. cbn in H. rewrite length_append in H. lia.
  - injection H as -> H. now rewrite (IH b H).
Qed.

Lemma startswith_append (p r : string) : startswith p (p ++ r) = true.
Proof.
  induction p as [|c p IH]; [reflexivity|].
  cbn. now rewrite Ascii.eqb_refl.
Qed.

Lemma startswith_split (p s : string) :
  startswith p s = true -> exists r, s = p ++ r.
Proof.
  revert s. induction p as [|c p IH]; intros s H; [now exists s|].
  destruct s as [|d s]; [discriminate|]. cbn in H.
  apply andb_true_split in H. destruct H as [Hc Hp].
  apply Ascii.eqb_eq in Hc. subst d.
  destruct (IH s Hp) as (r & ->). now exists r.
Qed.

(** [contains sub s] holds exactly when [s] is [a ++ sub ++ b]. *)
Lemma contains_iff (sub s : string) :
  contains sub s = true <-> exists a b, s = a ++ sub ++ b.
Proof.
  split.
  - induction s as [|c s IH]; cbn [contains]; intros H.
    + rewrite orb_false_r in H. apply startswith_split in H.
      destruct H as (r & ->). now exists "", r.
    + apply orb_true_iff in H. destruct H as [H|H].
      * apply startswith_split in H. destruct H as (r & ->). now exists "", r.
      * destruct (IH H) as (a & b & ->). now exists (String c a), b.
  - intros (a & b & ->). induction a as [|c a IH].
    + cbn [append]. destruct (sub ++ b) eqn:E.
      * destruct sub; [reflexivity|discriminate].
      * cbn [contains]. rewrite <- E, startswith_append. reflexivity.
    + cbn [append contains]. rewrite IH. apply orb_true_r.
Qed.

Lemma contains_char_append (c : ascii) (a b : string) :
  contains (String c "") (a ++ b) =
  contains (String c "") a || contains (String c "") b.
Proof.
  induction a as [|x a IH]; cbn [append contains startswith].
  - reflexivity.
  - rewrite IH, andb_true_r. now rewrite orb_assoc.
Qed.

Lemma contains_char_cons (c x : ascii) (s : string) :
  contains (String c "") (String x s) = false ->
  Ascii.eqb x c = false /\ contains (String c "") s = false.
Proof.
  cbn [contains startswith]. rewrite andb_true_r, Ascii.eqb_sym.
  apply orb_false_elim.
Qed.

Lemma lower_char_space (c : ascii) :
  Ascii.eqb " " (lower_char c) = Ascii.eqb " " c.
Proof. destruct c as [[] [] [] [] [] [] [] []]; reflexivity. Qed.

Lemma contains_space_lower (s : string) :
  contains " " (lower s) = contains " " s.
Proof.
  induction s as [|c s IH]; [reflexivity|].
  cbn [lower map_chars contains startswith]. fold (lower s).
  now rewrite IH, lower_char_space.
Qed.

Lemma length_lower (s : string) : String.length (lower s) = String.length s.
Proof. induction s as [|c s IH]; cbn; [reflexivity|now f_equal]. Qed.

Ltac norm_append := rewrite ?append_assoc; cbn [append]; rewrite ?append_assoc.

(** ** Splitting *)

Lemma split_nonempty c s : exists h t, split c s = h :: t.
Proof.
  induction s as [|a s IH]; cbn [split]; [now exists "", []|].
  destruct (Ascii.eqb a c); [now do 2 eexists|].
  destruct IH as (h & t & ->). now do 2 eexists.
Qed.

(** [s.split(c)[1]] exists as soon as [c] occurs in [s]. *)
Lemma split_second c s :
  contains (String c "") s = true ->
  exists x, nth_error (split c s) 1 = Some x.
Proof.
  induction s as [|a s IH]; cbn [contains startswith]; [discriminate|].
  rewrite andb_true_r, Ascii.eqb_sym. cbn [split].
  destruct (Ascii.eqb a c); cbn [orb].
  - intros _. destruct (split_nonempty c s) as (h & t & ->). now exists h.
  - intros H. destruct (IH H) as (x & Hx).
    destruct (split_nonempty c s) as (h & t & E). rewrite E in *. now exists x.
Qed.

Lemma split_pieces_no_sep c s k x :
  nth_error (split c s) k = Some x -> contains (String c "") x = false.
Proof.
  revert k x. induction s as [|a s IH]; intros k x; cbn [split].
  - destruct k as [|[|k]]; cbn; try discriminate. now intros [= <-].
  - destruct (Ascii.eqb a c) eqn:E.
    + destruct k as [|k]; cbn [nth_error]; [now intros [= <-]|apply IH].
    + destruct (split_nonempty c s) as (h & t & Hs). rewrite Hs in *.
      destruct k as [|k]; cbn [nth_error].
      * intros [= <-]. cbn [contains startswith].
        rewrite Ascii.eqb_sym, E. cbn. apply (IH 0). reflexivity.
      * intros H. apply (IH (S k)). exact H.
Qed.

Lemma split_head_part d c s :
  contains (String d "") s = false ->
  contains (String d "") (hd "" (split c s)) = false.
Proof.
  induction s as [|a s IH]; cbn [split]; [reflexivity|].
  cbn [contains startswith]. rewrite andb_true_r. intros H.
  apply orb_false_elim in H. destruct H as [Ha Hs].
  destruct (Ascii.eqb a c); [reflexivity|].
  destruct (split_nonempty c s) as (h & t & E). rewrite E in *. cbn [hd] in *.
  cbn [contains startswith]. now rewrite andb_true_r, Ha, IH.
Qed.

Lemma split_no_sep c s :
  contains (String c "") s = false -> split c s = [s].
Proof.
  induction s as [|a s IH]; [reflexivity|]. intros H.
  apply contains_char_cons in H. destruct H as [Ha Hs].
  cbn [split]. now rewrite Ha, (IH Hs).
Qed.

(** Splitting goes through a prefix that does not hold the separator. *)
Lemma split_append c a b :
  contains (String c "") a = false ->
  split c (a ++ b) = (a ++ hd "" (split c b)) :: tl (split c b).
Proof.
  induction a as [|x a IH]; intros H.
  - cbn [append]. now destruct (split_nonempty c b) as (h & t & ->).
  - apply contains_char_cons in H. destruct H as [Hx Ha].
    cbn [append split]. now rewrite Hx, (IH Ha).
Qed.

Lemma split_at_sep c a b :
  contains (String c "") a = false ->
  split c (a ++ String c b) = a :: split c b.
Proof.
  intros H. rewrite (split_append _ _ _ H). cbn [split].
  rewrite Ascii.eqb_refl. cbn [hd tl]. now rewrite append_nil_r.
Qed.

(** ** Stripping *)

Lemma lstrip_head p x s : p x = false -> lstrip_by p (String x s) = String x s.
Proof. intros H. cbn [lstrip_by]. now rewrite H. Qed.

Lemma lstrip_drop p x s : p x = true -> lstrip_by p (String x s) = lstrip_by p s.
Proof. intros H. cbn [lstrip_by]. now rewrite H. Qed.

Lemma lstrip_length p s : String.length (lstrip_by p s) <= String.length s.
Proof.
  induction s as [|c s IH]; cbn [lstrip_by String.length]; [lia|].
  destruct (p c); cbn [String.length]; lia.
Qed.

Lemma rstrip_length p s : String.length (rstrip_by p s) <= String.length s.
Proof.
  induction s as [|c s IH]; cbn [rstrip_by String.length]; [lia|].
  destruct (rstrip_by p s); [destruct (p c)|]; cbn [String.length] in *; lia.
Qed.

Lemma lstrip_fixed p s : strip_by p s = s -> lstrip_by p s = s.
Proof.
  unfold strip_by. intros H. destruct s as [|c s]; [reflexivity|].
  cbn [lstrip_by] in *. destruct (p c); [|reflexivity].
  apply (f_equal String.length) in H. cbn [String.length] in H.
  pose proof (rstrip_length p (lstrip_by p s)).
  pose proof (lstrip_length p s). lia.
Qed.

Lemma rstrip_fixed p s : strip_by p s = s -> rstrip_by p s = s.
Proof. intros H. pose proof H as H'. unfold strip_by in H'.
  now rewrite (lstrip_fixed _ _ H) in H'. Qed.

Lemma rstrip_append_char p a c b :
  p c = false ->
  rstrip_by p (a ++ String c b) = a ++ String c (rstrip_by p b).
Proof.
  intros Hc. induction a as [|x a IH]; cbn [append rstrip_by].
  - destruct (rstrip_by p b); [now rewrite Hc|reflexivity].
  - rewrite IH. now destruct a.
Qed.

Lemma rstrip_append_space p a c :
  p c = true -> rstrip_by p (a ++ String c "") = rstrip_by p a.
Proof.
  intros Hc. induction a as [|x a IH]; cbn [append rstrip_by].
  - now rewrite Hc.
  - now rewrite IH.
Qed.

Lemma lstrip_append p a b :
  lstrip_by p a = a -> a <> "" -> lstrip_by p (a ++ b) = a ++ b.
Proof.
  destruct a as [|x a]; [congruence|]. intros H _. cbn [lstrip_by append] in *.
  destruct (p x); [|reflexivity].
  apply (f_equal String.length) in H. cbn [String.length] in H.
  pose proof (lstrip_length p a). lia.
Qed.

(** Stripping a stripped text that is followed by a separator and more. *)
Lemma strip_append_char a c b :
  strip a = a -> is_space c = false ->
  strip (a ++ String c b) = a ++ String c (rstrip_by is_space b).
Proof.
  intros Ha Hc. unfold strip, strip_by.
  assert (Hl : lstrip_by is_space (a ++ String c b) = a ++ String c b).
  { destruct a as [|x a]; [cbn; now rewrite Hc|].
    apply lstrip_append; [now apply lstrip_fixed|discriminate]. }
  rewrite Hl. now apply rstrip_append_char.
Qed.

(** ** Replacement *)

Lemma replace_nonempty old new s :
  old <> "" -> replace old new s = replace_from old new 0 s.
Proof. destruct old; [congruence|reflexivity]. Qed.

Lemma length_nonempty (s : string) : s <> "" -> 1 <= String.length s.
Proof. destruct s; [congruence|cbn; lia]. Qed.

Lemma startswith_itself (s : string) : startswith s s = true.
Proof. rewrite <- (append_nil_r s) at 2. apply startswith_append. Qed.

Lemma startswith_length p s :
  startswith p s = true -> String.length p <= String.length s.
Proof.
  revert s. induction p as [|a p IH]; intros [|b s] H; cbn [String.length];
    try lia; try discriminate.
  cbn in H. apply andb_true_split in H. destruct H as [_ H].
  apply IH in H. lia.
Qed.

Lemma startswith_same_length p t y :
  startswith p (t ++ y) = true -> String.length t = String.length p -> p = t.
Proof.
  revert t. induction p as [|a p IH]; intros [|b t] H Hl; cbn in Hl; try lia.
  - reflexivity.
  - cbn in H. apply andb_true_split in H. destruct H as [Hc H].
    apply Ascii.eqb_eq in Hc. subst b. f_equal. apply IH; [assumption|lia].
Qed.

(** A text whose last character is not [c] starts [s ++ c] only when it
    starts [s]. *)
Lemma startswith_snoc p c s :
  endswith (String c "") p = false ->
  startswith p (s ++ String c "") = startswith p s.
Proof.
  revert s. induction p as [|a p IH]; intros s H; [reflexivity|].
  cbn [endswith] in H. apply orb_false_elim in H. destruct H as [H1 H2].
  destruct s as [|b s]; cbn [append startswith].
  - destruct p as [|x p]; [|apply andb_false_r].
    cbn in H1. destruct (Ascii.eqb a c); [discriminate|reflexivity].
  - now rewrite IH.
Qed.

Lemma endswith_char_snoc x a c :
  Ascii.eqb a c = false -> endswith (String c "") (x ++ String a "") = false.
Proof.
  intros H. induction x as [|b x IH]; cbn [append endswith].
  - cbn. now rewrite H.
  - rewrite IH, orb_false_r. cbn [String.eqb].
    destruct (Ascii.eqb b c); [|reflexivity]. now destruct x.
Qed.

(** Skipping past the end leaves nothing. *)
Lemma replace_from_past old new k s :
  String.length s <= k -> replace_from old new k s = "".
Proof.
  revert k. induction s as [|c s IH]; intros k H; [now destruct k|].
  cbn [String.length] in H. destruct k as [|k]; [lia|].
  cbn [replace_from]. apply IH. lia.
Qed.

(** A replacement by a text that is not longer does not lengthen, and one
    by a text that is not shorter does not shorten. *)
Lemma replace_from_shorter old new s k :
  old <> "" -> String.length new <= String.length old ->
  k <= String.length s ->
  String.length (replace_from old new k s) + k <= String.length s.
Proof.
  intros Ho Hl. apply length_nonempty in Ho.
  revert k. induction s as [|c s IH]; intros k Hk.
  - cbn [String.length] in Hk. destruct k; cbn; lia.
  - cbn [replace_from String.length] in *. destruct k as [|k].
    + destruct (startswith old (String c s)) eqn:E.
      * apply startswith_length in E. cbn [String.length] in E.
        rewrite length_append.
        specialize (IH (String.length old - 1)). lia.
      * cbn [String.length]. specialize (IH 0). lia.
    + specialize (IH k). lia.
Qed.

Lemma replace_from_longer old new s k :
  old <> "" -> String.length old <= String.length new ->
  k <= String.length s ->
  String.length s <= String.length (replace_from old new k s) + k.
Proof.
  intros Ho Hl. apply length_nonempty in Ho.
  revert k. induction s as [|c s IH]; intros k Hk.
  - cbn [String.length] in Hk. destruct k; cbn; lia.
  - cbn [replace_from String.length] in *. destruct k as [|k].
    + destruct (startswith old (String c s)) eqn:E.
      * apply startswith_length in E. cbn [String.length] in E.
        rewrite length_append.
        specialize (IH (String.length old - 1)). lia.
      * cbn [String.length]. specialize (IH 0). lia.
    + specialize (IH k). lia.
Qed.

(** A replacement by another text changes every text that holds [old]. *)
Lemma replace_changes old new s :
  old <> "" -> old <> new -> contains old s = true -> replace old new s <> s.
Proof.
  intros Ho Hne. rewrite replace_nonempty by assumption.
  induction s as [|c s IH]; cbn [contains replace_from].
  - destruct old; [congruence|discriminate].
  - destruct (startswith old (String c s)) eqn:E.
    + intros _ Heq.
      pose proof (startswith_length _ _ E) as Hlen.
      pose proof (length_nonempty _ Ho) as H1.
      cbn [String.length] in Hlen.
      assert (Hk : String.length old - 1 <= String.length s) by lia.
      pose proof (f_equal String.length Heq) as Hl.
      rewrite length_append in Hl. cbn [String.length] in Hl.
      destruct (lt_eq_lt_dec (String.length new) (String.length old))
        as [[Hlt|Hsame]|Hgt].
      * pose proof (replace_from_shorter old new s _ Ho (Nat.lt_le_incl _ _ Hlt) Hk).
        lia.
      * apply Hne. rewrite <- Heq in E.
        now apply startswith_same_length in E.
      * pose proof (replace_from_longer old new s _ Ho (Nat.lt_le_incl _ _ Hgt) Hk).
        lia.
    + cbn [orb]. intros H Heq. injection Heq as Heq. now apply IH.
Qed.

(** Replacing a text by itself inside itself gives it back. *)
Lemma replace_itself t : replace t t t = t.
Proof.
  destruct t as [|c t]; [reflexivity|]. unfold replace.
  cbn [replace_from]. rewrite startswith_itself.
  rewrite replace_from_past by (cbn [String.length]; lia).
  apply append_nil_r.
Qed.

(** A last character that does not end [old] stays where it is. *)
Lemma replace_from_snoc old new c s k :
  old <> "" -> endswith (String c "") old = false ->
  k <= String.length s ->
  replace_from old new k (s ++ String c "") =
  replace_from old new k s ++ String c "".
Proof.
  intros Ho He. revert k. induction s as [|b s IH]; intros k Hk.
  - cbn [String.length] in Hk. assert (k = 0) by lia. subst k.
    cbn [append replace_from].
    change (String c "") with ("" ++ String c "") at 1.
    rewrite startswith_snoc by assumption.
    destruct old; [congruence|reflexivity].
  - cbn [String.length] in Hk. destruct k as [|k].
    + cbn [append replace_from].
      change (String b (s ++ String c "")) with (String b s ++ String c "").
      rewrite startswith_snoc by assumption.
      destruct (startswith old (String b s)) eqn:E.
      * apply startswith_length in E. cbn [String.length] in E.
        rewrite IH by lia. now rewrite append_assoc.
      * now rewrite IH by lia.
    + cbn [append replace_from]. apply IH. lia.
Qed.

Lemma replace_snoc old new c s :
  old <> "" -> endswith (String c "") old = false ->
  replace old new (s ++ String c "") = replace old new s ++ String c "".
Proof.
  intros Ho He. rewrite !replace_nonempty by assumption.
  apply replace_from_snoc; [assumption|assumption|lia].
Qed.

Lemma replace_from_absent old new s :
  contains old s = false -> replace_from old new 0 s = s.
Proof.
  induction s as [|c s IH]; [reflexivity|].
  cbn [contains replace_from]. intros H. apply orb_false_elim in H.
  destruct H as [-> H]. now rewrite IH.
Qed.

Lemma replace_absent old new s :
  old <> "" -> contains old s = false -> replace old new s = s.
Proof.
  intros Hold H. rewrite replace_nonempty by assumption.
  now apply replace_from_absent.
Qed.

(** ** The default table name *)

Lemma default_name_nonempty n : default_name n <> "".
Proof. discriminate. Qed.

Lemma default_name_length n :
  String.length (default_name n) = String.length n + 5.
Proof.
  unfold default_name. cbn [append String.length].
  rewrite length_append, length_lower. cbn. lia.
Qed.

Lemma default_name_no_space n :
  contains " " n = false -> contains " " (default_name n) = false.
Proof.
  intros H. unfold default_name. cbn [append contains startswith Ascii.eqb
    Bool.eqb andb orb].
  now rewrite contains_char_append, contains_space_lower, H.
Qed.

Lemma contains_default_head n c s :
  Ascii.eqb "a" c = false ->
  contains (default_name n) (String c s) = contains (default_name n) s.
Proof.
  intros H. unfold default_name. cbn [append contains startswith].
  now rewrite H.
Qed.

Lemma replace_default_head n t c s :
  Ascii.eqb "a" c = false ->
  replace (default_name n) t (String c s) =
  String c (replace (default_name n) t s).
Proof.
  intros H. unfold replace, default_name. cbn [append].
  cbn [replace_from startswith]. now rewrite H.
Qed.

Lemma replace_default_nil n t : replace (default_name n) t "" = "".
Proof. reflexivity. Qed.

Lemma replace_basic_line n t x :
  basic_line x = true -> basic_line (replace (default_name n) t x) = true.
Proof.
  unfold basic_line. intros H.
  repeat (apply orb_true_iff in H; destruct H as [H|H]).
  - apply String.eqb_eq in H. now subst x.
  - apply startswith_split in H. destruct H as (r & ->). cbn [append tab].
    rewrite replace_default_head by reflexivity. cbn.
    now rewrite ?orb_true_r.
  - apply startswith_split in H. destruct H as (r & ->). cbn [append].
    rewrite replace_default_head by reflexivity. cbn.
    now rewrite ?orb_true_r.
  - apply startswith_split in H. destruct H as (r & ->). cbn [append].
    rewrite !replace_default_head by reflexivity. cbn.
    now rewrite ?orb_true_r.
Qed.

Lemma startswith_past_space d m r :
  startswith d (m ++ String " " r) = true ->
  String.length d <= String.length m \/ contains " " d = true.
Proof.
  revert d. induction m as [|c m IH]; intros [|a d] H; cbn [String.length].
  - left. lia.
  - right. cbn in H. apply andb_true_split in H. destruct H as [H _].
    apply Ascii.eqb_eq in H. subst a. reflexivity.
  - left. lia.
  - cbn in H. apply andb_true_split in H. destruct H as [_ H].
    destruct (IH d H) as [Hl|Hc]; [left; lia|right].
    cbn [contains]. rewrite Hc. apply orb_true_r.
Qed.

Lemma replace_default_name_tail n t m :
  contains " " n = false ->
  String.length m <= String.length n ->
  replace (default_name n) t (m ++ " struct {") = m ++ " struct {".
Proof.
  intros Hn. induction m as [|c m IH]; intros Hl.
  - cbn [append]. now rewrite !replace_default_head, replace_default_nil.
  - cbn [append]. cbn [String.length] in Hl.
    assert (Hs : startswith (default_name n) (String c (m ++ " struct {"))
                 = false).
    { destruct (startswith _ _) eqn:E; [|reflexivity].
      apply (startswith_past_space _ (String c m)) in E.
      rewrite default_name_length, default_name_no_space in E by assumption.
      cbn [String.length] in E. destruct E; [lia|discriminate]. }
    assert (Hr : replace (default_name n) t (String c (m ++ " struct {")) =
                 String c (replace (default_name n) t (m ++ " struct {"))).
    { unfold replace in *. unfold default_name in *. cbn [append] in *.
      cbn [replace_from]. now rewrite Hs. }
    rewrite Hr, IH by lia. reflexivity.
Qed.

(** The first line of a declaration never holds its default table name. *)
Lemma replace_type_line n t :
  contains " " n = false ->
  replace (default_name n) t (type_line n) = type_line n.
Proof.
  intros Hn. unfold type_line. cbn [append].
  rewrite !replace_default_head by reflexivity.
  now rewrite replace_default_name_tail.
Qed.

Lemma model_name_no_space l name :
  model_name_of l = Some name -> contains " " name = false.
Proof.
  unfold model_name_of. destruct (nth_error (split " " l) 1) as [tok|] eqn:E;
    [|discriminate].
  intros [= <-]. apply split_head_part. now apply split_pieces_no_sep in E.
Qed.

(** ** The parts of a step *)

Lemma grow_nil st : grow [] [] st = st.
Proof. destruct st. unfold grow. cbn. now rewrite !app_nil_r. Qed.

Lemma append_model_grow x a e st :
  append_model x (grow a e st) = grow (a ++ [x]) e st.
Proof. unfold append_model, grow. cbn. now rewrite app_assoc. Qed.

Lemma append_error_grow x a e st :
  append_error x (grow a e st) = grow a (e ++ [x]) st.
Proof. unfold append_error, grow. cbn. now rewrite app_assoc. Qed.

Lemma translate_field_typed st l ft :
  is_pk_line l = false ->
  field_type_of (split "=" l) = Some ft ->
  translate_field st l =
  match TYPE_MAP ft with
  | Some gotype => Ok (append_model (scalar_line (field_name_of l) gotype) st)
  | None =>
      let fkeymodel := fkeymodel_of (split "=" l) in
      if String.eqb ft "ForeignKey" then
        Ok (append_model (fkey_field (field_name_of l) fkeymodel)
              (append_model
                 (self_id_field (field_name_of l)
                    (foreignkey_tag (field_name_of l))) st))
      else if String.eqb ft "ManyToManyField" then
        Ok (append_model
              (many2many_line (field_name_of l) fkeymodel
                 (many2many_tag (table_name st) (field_name_of l)))
              (append_model
                 (tab ++ "\ !! NOTE: m2m key relationship/name may not work")
                 st))
      else if String.eqb ft "OneToOneField" then
        Ok (append_model (fkey_field (field_name_of l) fkeymodel)
              (append_model
                 (self_id_field (field_name_of l)
                    (onetoone_tag (field_name_of l))) st))
      else if contains "getLogger" l then Ok st
      else if endswith "," (prev_line st) || endswith "\" (prev_line st)
      then Ok st
      else
        Ok (append_model
              (tab ++ "// !! unknown type in line " ++
               str_of_nat (lines st) ++ ", original: " ++ l)
              (append_error
                 (str_of_nat (lines st) ++ ": Unknown/unhandled line: " ++ ft)
                 st))
  end.
Proof.
  intros Hpk Hft. unfold translate_field. rewrite Hft.
  unfold is_pk_line, field_name_of in Hpk. now rewrite Hpk.
Qed.

Lemma translate_field_grow_from st l st' :
  translate_field (grow [] [] st) l = Ok st' ->
  exists added errs,
    st' = grow added errs st /\
    Forall (fun x => startswith tab x = true) added.
Proof.
  unfold translate_field.
  repeat match goal with
    | |- context [match ?c with _ => _ end] => destruct c
    end;
    try discriminate;
    rewrite ?append_error_grow, ?append_model_grow;
    intros H; injection H as <-;
    do 2 eexists; (split; [reflexivity|]);
    repeat constructor.
Qed.

(** The field translation only adds lines that start with a tab to the
    buffer, and only adds to the errors. *)
Lemma translate_field_grow st l st' :
  translate_field st l = Ok st' ->
  exists added errs,
    st' = grow added errs st /\
    Forall (fun x => startswith tab x = true) added.
Proof. rewrite <- (grow_nil st) at 1. apply translate_field_grow_from. Qed.

Lemma translate_field_stops st l f :
  translate_field st l = Stop f ->
  field_type_of (split "=" l) = None /\ contains "TreeForeignKey" l = false.
Proof.
  unfold translate_field.
  destruct (field_type_of (split "=" l)) as [ft|].
  - repeat match goal with
      | |- context [match ?c with _ => _ end] => destruct c
      end; discriminate.
  - destruct (contains "TreeForeignKey" l); [discriminate|now split].
Qed.

Lemma close_default_out st :
  custom_table_name st = false ->
  close_model_def st =
  set_out_lines (out_lines st ++ current_model st ++ ["}"; ""])%list
    (set_current_model (current_model st ++ ["}"; ""])%list st).
Proof. intros H. unfold close_model_def. now rewrite H. Qed.

Lemma close_keeps_fields st :
  last_model_closed (close_model_def st) = last_model_closed st /\
  got_custom_tables (close_model_def st) = got_custom_tables st /\
  in_model_def (close_model_def st) = in_model_def st /\
  model_name (close_model_def st) = model_name st /\
  default_table_name (close_model_def st) = default_table_name st /\
  table_name (close_model_def st) = table_name st /\
  custom_table_name (close_model_def st) = custom_table_name st /\
  found_user_table (close_model_def st) = found_user_table st /\
  found_group_table (close_model_def st) = found_group_table st /\
  errors (close_model_def st) = errors st.
Proof.
  unfold close_model_def. destruct (custom_table_name st) eqn:E;
    cbn; now rewrite ?E.
Qed.

(** The lines that closing a declaration sends to the output. *)
Lemma close_out_lines st :
  out_lines (close_model_def st) =
  (out_lines st ++
   if custom_table_name st
   then map (replace (default_table_name st) (table_name st))
          ((current_model st ++ ["}"; ""]) ++ accessor_lines st)
   else current_model st ++ ["}"; ""])%list.
Proof. unfold close_model_def. now destruct (custom_table_name st). Qed.

Lemma open_model_fields name st :
  current_model (open_model name st) = (current_model st ++ [type_line name])%list /\
  out_lines (open_model name st) = out_lines st /\
  model_name (open_model name st) = name /\
  found_user_table (open_model name st) =
    String.eqb name "User" || found_user_table st /\
  found_group_table (open_model name st) =
    String.eqb name "Group" || found_group_table st /\
  default_table_name (open_model name st) = default_name name /\
  table_name (open_model name st) = default_name name /\
  custom_table_name (open_model name st) = false /\
  in_model_def (open_model name st) = in_model_def st /\
  got_custom_tables (open_model name st) = got_custom_tables st /\
  errors (open_model name st) = errors st.
Proof.
  unfold open_model.
  destruct (String.eqb name "User"), (String.eqb name "Group");
    cbn; repeat split.
Qed.

Lemma is_def_not_header raw :
  is_def raw = true -> is_class_header (strip raw) = false.
Proof.
  unfold is_def. intros H. apply startswith_split in H. destruct H as (r & ->).
  unfold strip, strip_by. cbn [append].
  rewrite lstrip_head by reflexivity. cbn [rstrip_by].
  now destruct (rstrip_by is_space _).
Qed.

Lemma step_field_line st raw :
  in_model_def st = true ->
  is_field_line (prev_line st) raw = true ->
  step st raw =
  (st' <- translate_field st (strip raw) ;; Ok (advance (strip raw) st')).
Proof.
  intros Hin H. unfold is_field_line in H. split_andb.
  unfold step. rewrite H. cbn [andb].
  now rewrite H5, Hin, H4, H3, H2, H1, H0.
Qed.

Lemma step_cases st raw st' :
  step st raw = Ok st' ->
  let st1 := def_closed raw st in
  let l := strip raw in
  (is_class_header l = true /\
   exists name,
     model_name_of l = Some name /\
     st' = advance l
             (open_model name
                (set_last_model_closed false
                   (set_in_model_def true
                      (if in_model_def st1 then close_and_reset st1 else st1)))))
  \/
  (is_class_header l = false /\ in_model_def st1 = true /\
   exists rhs,
     st' = advance l
             (set_table_name (unquote rhs)
                (set_got_custom_tables true (set_custom_table_name true st1))))
  \/
  (is_class_header l = false /\
   exists a e,
     st' = advance l (grow a e st1) /\
     Forall (fun x => startswith tab x = true) a /\
     (in_model_def st1 = false -> a = [])).
Proof.
  intros H. cbv zeta. unfold step in H. fold (def_closed raw st) in H.
  cbv zeta in H.
  set (st1 := def_closed raw st) in *. set (l := strip raw) in *.
  apply bind_ok in H. destruct H as (s & H & E). injection E as <-.
  destruct (is_class_header l).
  { left. split; [reflexivity|].
    destruct (model_name_of l) as [name|]; [|discriminate].
    injection H as <-. now exists name. }
  right.
  assert (Hnil : s = st1 -> exists a e,
             advance l s = advance l (grow a e st1) /\
             Forall (fun x => startswith tab x = true) a /\
             (in_model_def st1 = false -> a = [])).
  { intros ->. exists [], []. now rewrite grow_nil. }
  assert (Hone : forall x, startswith tab x = true ->
             s = append_model x st1 -> in_model_def st1 = true ->
             exists a e,
               advance l s = advance l (grow a e st1) /\
               Forall (fun x => startswith tab x = true) a /\
               (in_model_def st1 = false -> a = [])).
  { intros x Hx -> Hin. exists [x], [].
    rewrite <- (grow_nil st1) at 1. rewrite append_model_grow.
    split; [reflexivity|]. split; [now constructor|]. congruence. }
  destruct (in_model_def st1) eqn:Hin;
    [|right; split; [reflexivity|]; injection H as <-; now apply Hnil].
  destruct (is_db_table (prev_line st1) l).
  { left. repeat split.
    destruct (nth_error (split "=" l) 1) as [rhs|]; [|discriminate].
    injection H as <-. now exists rhs. }
  right. split; [reflexivity|].
  destruct (startswith (dq ++ dq ++ dq) l);
    [injection H as <-; eapply Hone; [|reflexivity|reflexivity]; reflexivity|].
  destruct (startswith "#" l);
    [injection H as <-; eapply Hone; [|reflexivity|reflexivity]; reflexivity|].
  destruct (contains "=" l && contains "models." l);
    [|injection H as <-; now apply Hnil].
  apply translate_field_grow in H. destruct H as (a & e & -> & Ha).
  exists a, e. split; [reflexivity|]. split; [assumption|]. congruence.
Qed.

Lemma step_prev_line st raw st' :
  step st raw = Ok st' -> prev_line st' = strip raw.
Proof.
  unfold step. intros H. apply bind_ok in H. destruct H as (s & _ & H).
  now injection H as <-.
Qed.

Lemma step_keeps_table_name st raw st' :
  in_model_def st = true ->
  is_def raw = false ->
  is_class_header (strip raw) = false ->
  is_db_table (prev_line st) (strip raw) = false ->
  step st raw = Ok st' ->
  custom_table_name st' = custom_table_name st /\
  table_name st' = table_name st /\
  got_custom_tables st' = got_custom_tables st.
Proof.
  intros Hin Hdef Hcls Hdb. unfold step. rewrite Hdef. cbn [andb].
  rewrite Hcls, Hin, Hdb. intros H. apply bind_ok in H.
  destruct H as (s & H & E). injection E as <-.
  destruct (startswith (dq ++ dq ++ dq) (strip raw));
    [injection H as <-; now repeat split|].
  destruct (startswith "#" (strip raw)); [injection H as <-; now repeat split|].
  destruct (contains "=" (strip raw) && contains "models." (strip raw));
    [|injection H as <-; now repeat split].
  apply translate_field_grow in H. destruct H as (a & e & -> & _).
  now repeat split.
Qed.

(** ** Scans *)

Lemma scan_app st xs ys :
  scan st (xs ++ ys) = (st' <- scan st xs ;; scan st' ys).
Proof.
  revert st. induction xs as [|x xs IH]; intros st; [reflexivity|].
  cbn [scan app]. destruct (step st x) as [st1|f]; [apply IH|reflexivity].
Qed.

Lemma scan_prev_line st pre p st' :
  scan st (pre ++ [p]) = Ok st' -> prev_line st' = strip p.
Proof.
  rewrite scan_app. intros H. apply bind_ok in H. destruct H as (s & _ & H).
  cbn [scan] in H. apply bind_ok in H. destruct H as (s' & H & E).
  injection E as <-. now apply step_prev_line in H.
Qed.

Lemma step_open_not_closed st raw st' :
  (in_model_def st = true -> last_model_closed st = false) ->
  step st raw = Ok st' ->
  in_model_def st' = true -> last_model_closed st' = false.
Proof.
  intros Hst H. apply step_cases in H. cbv zeta in H.
  assert (H1 : in_model_def (def_closed raw st) = true ->
               last_model_closed (def_closed raw st) = false).
  { unfold def_closed. destruct (is_def raw && in_model_def st); [|assumption].
    unfold close_and_reset.
    destruct (close_keeps_fields (set_in_model_def false st))
      as (_ & _ & Hi & _).
    cbn [in_model_def set_current_model set_last_model_closed].
    rewrite Hi. discriminate. }
  set (st1 := def_closed raw st) in *.
  destruct H as [(_ & name & _ & ->)|[(_ & _ & rhs & ->)|(_ & a & e & -> & _)]].
  - intros _. unfold advance, open_model.
    destruct (String.eqb name "User"), (String.eqb name "Group"); reflexivity.
  - exact H1.
  - exact H1.
Qed.

Lemma scan_open_not_closed st in_lines st' :
  (in_model_def st = true -> last_model_closed st = false) ->
  scan st in_lines = Ok st' ->
  in_model_def st' = true -> last_model_closed st' = false.
Proof.
  revert st. induction in_lines as [|raw rest IH]; intros st Hst H.
  - now injection H as <-.
  - cbn [scan] in H. apply bind_ok in H. destruct H as (s & Hs & H).
    apply (IH s); [|assumption]. now apply (step_open_not_closed st raw).
Qed.



Lemma convert_lines_ok in_lines h u g out errs :
  convert_lines in_lines h u g = Ok (out, errs) ->
  exists st,
    scan initial in_lines = Ok st /\
    out = (out_prefix h u g (finish st) ++ out_lines (finish st))%list /\
    errs = errors (finish st).
Proof.
  unfold convert_lines. intros H. apply bind_ok in H.
  destruct H as (st & Hs & H). injection H as <- <-. now exists st.
Qed.


(** ** Lines that are dropped *)

(** C10: inside a declaration, a line that is no boundary, not the
    [db_table] assignment, no docstring, no comment, and does not hold both
    [=] and [models.], leaves no trace: the output, the buffer of the
    declaration and the list of errors stay as they were; only the line
    counter and the previous line move on. *)
Theorem other_line_dropped (st : state) (raw : string) :
  in_model_def st = true ->
  is_def raw = false ->
  is_class_header (strip raw) = false ->
  is_db_table (prev_line st) (strip raw) = false ->
  startswith (dq ++ dq ++ dq) (strip raw) = false ->
  startswith "#" (strip raw) = false ->
  contains "=" (strip raw) && contains "models." (strip raw) = false ->
  step st raw = Ok (advance (strip raw) st) /\
  out_lines (advance (strip raw) st) = out_lines st /\
  current_model (advance (strip raw) st) = current_model st /\
  errors (advance (strip raw) st) = errors st.
Proof.
  intros Hin Hdef Hcls Hdb Hdoc Hcom Hfld. split; [|now repeat split].
  unfold step. rewrite Hdef. cbn [andb].
  now rewrite Hcls, Hin, Hdb, Hdoc, Hcom, Hfld.
Qed.

Lemma other_line_dropped_witness :
  let st := open_model "Foo" (set_in_model_def true initial) in
  let raw := "    def save(self, *args, **kwargs):" in
  step st raw = Ok (advance (strip raw) st) /\
  out_lines (advance (strip raw) st) = out_lines st /\
  current_model (advance (strip raw) st) = current_model st /\
  errors (advance (strip raw) st) = errors st.
Proof.
  apply (other_line_dropped
           (open_model "Foo" (set_in_model_def true initial))
           "    def save(self, *args, **kwargs):"); reflexivity.
Defined.

(** ** Field lines *)

(** C5, as the code has it: a field line whose constructor the type table
    maps to [string] adds exactly one line to the declaration: the
    capitalized field name, the type [string], and a column tag that holds
    the field name as it is written in the source (it is not put in lower
    case). *)
Theorem string_field_line (st : state) (raw ctor : string) :
  in_model_def st = true ->
  is_field_line (prev_line st) raw = true ->
  is_pk_line (strip raw) = false ->
  field_type_of (split "=" (strip raw)) = Some ctor ->
  TYPE_MAP ctor = Some "string" ->
  step st raw =
  Ok (advance (strip raw)
        (set_current_model
           (app (current_model st)
              [tab ++ capitalize (field_name_of (strip raw)) ++ tab ++ tab ++
               "string" ++ tab ++ "`gorm:" ++ dq ++ "column:" ++
               field_name_of (strip raw) ++ dq ++ "`"])
           st)).
Proof.
  intros Hin Hfl Hpk Hft Hmap.
  rewrite (step_field_line _ _ Hin Hfl).
  rewrite (translate_field_typed _ _ _ Hpk Hft), Hmap.
  reflexivity.
Qed.

Lemma string_field_line_witness :
  let st := open_model "Foo" (set_in_model_def true initial) in
  step st "    language = models.CharField(max_length=20, default='en')" =
  Ok (advance "language = models.CharField(max_length=20, default='en')"
        (set_current_model
           ["type Foo struct {";
            tab ++ "Language" ++ tab ++ tab ++ "string" ++ tab ++
            "`gorm:" ++ dq ++ "column:language" ++ dq ++ "`"]
           st)).
Proof.
  apply (string_field_line
           (open_model "Foo" (set_in_model_def true initial))
           "    language = models.CharField(max_length=20, default='en')"
           "CharField"); reflexivity.
Defined.

(** C5 as stated fails on a field name in mixed case: the column tag
    keeps the capitals of the source. *)
Lemma string_field_mixed_case :
  let st := open_model "Foo" (set_in_model_def true initial) in
  let raw := "    firstName = models.CharField(max_length=20)" in
  is_field_line (prev_line st) raw = true /\
  field_type_of (split "=" (strip raw)) = Some "CharField" /\
  field_name_of (strip raw) = "firstName" /\
  (exists st',
      step st raw = Ok st' /\
      current_model st' =
      ["type Foo struct {";
       tab ++ "Firstname" ++ tab ++ tab ++ "string" ++ tab ++
       "`gorm:" ++ dq ++ "column:firstName" ++ dq ++ "`"] /\
      ~ In (tab ++ "Firstname" ++ tab ++ tab ++ "string" ++ tab ++
            "`gorm:" ++ dq ++ "column:" ++ lower "firstName" ++ dq ++ "`")
          (current_model st')).
Proof.
  cbv zeta. repeat split; try reflexivity.
  eexists. split; [vm_compute; reflexivity|].
  split; [reflexivity|].
  vm_compute. intros [H|[H|[]]]; discriminate H.
Qed.

(** For a line [f = models.K(M,...)], lines 253, 256 and 268 find the
    field name [f], the constructor [K] and the related name [M]. *)
Lemma relationship_call_parts (f k m rest : string) :
  contains "=" f = false -> strip f = f ->
  contains "=" k = false -> contains "." k = false ->
  contains "(" k = false -> strip k = k ->
  contains "=" m = false -> contains "." m = false ->
  contains "(" m = false -> contains "," m = false ->
  strip m = m -> strip_chars ")" m = m ->
  let l := f ++ " = models." ++ k ++ "(" ++ m ++ "," ++ rest in
  field_name_of l = f /\
  field_type_of (split "=" l) = Some k /\
  fkeymodel_of (split "=" l) = m.
Proof.
  intros Hf Hfs Hk1 Hk2 Hk3 Hks Hm1 Hm2 Hm3 Hm4 Hms Hmp l.
  (* the pieces around the first [=] *)
  set (r1 := hd "" (split "=" rest)).
  assert (E1 : split "=" l =
               (f ++ " ") :: (" models." ++ k ++ "(" ++ m ++ "," ++ r1)
               :: tl (split "=" rest)).
  { assert (Hl : l = (f ++ " ") ++
                     String "=" ((" models." ++ k ++ "(" ++ m ++ ",") ++ rest))
      by (unfold l; now norm_append).
    rewrite Hl, split_at_sep by (now rewrite contains_char_append, Hf).
    rewrite split_append.
    - fold r1. f_equal. f_equal. now norm_append.
    - cbn [append contains startswith Ascii.eqb Bool.eqb andb orb].
      rewrite contains_char_append, Hk1.
      cbn [append contains startswith Ascii.eqb Bool.eqb andb orb].
      now rewrite contains_char_append, Hm1. }
  (* the right-hand side, stripped *)
  set (r1' := rstrip_by is_space r1).
  assert (E2 : strip (" models." ++ k ++ "(" ++ m ++ "," ++ r1) =
               "models." ++ k ++ "(" ++ m ++ "," ++ r1').
  { unfold strip, strip_by.
    assert (Hl : lstrip_by is_space (" models." ++ k ++ "(" ++ m ++ "," ++ r1)
                 = ("models." ++ k ++ "(" ++ m) ++ String "," r1).
    { cbn [append]. rewrite lstrip_drop by reflexivity.
      rewrite lstrip_head by reflexivity. now norm_append. }
    rewrite Hl, rstrip_append_char by reflexivity. unfold r1'.
    now norm_append. }
  (* the piece between the first and the second dot *)
  set (r2 := hd "" (split "." r1')).
  assert (E3 : nth_error (split "." ("models." ++ k ++ "(" ++ m ++ "," ++ r1')) 1
               = Some (k ++ "(" ++ m ++ "," ++ r2)).
  { assert (Hl : "models." ++ k ++ "(" ++ m ++ "," ++ r1' =
                 "models" ++ String "." ((k ++ "(" ++ m ++ ",") ++ r1'))
      by now norm_append.
    rewrite Hl, split_at_sep by reflexivity.
    rewrite split_append.
    - fold r2. rewrite nth_error_second. f_equal. now norm_append.
    - rewrite contains_char_append, Hk2.
      cbn [append contains startswith Ascii.eqb Bool.eqb andb orb].
      now rewrite contains_char_append, Hm2. }
  (* the pieces around the first parenthesis *)
  set (r3 := hd "" (split "(" r2)).
  assert (E4 : split "(" (k ++ "(" ++ m ++ "," ++ r2) =
               k :: (m ++ "," ++ r3) :: tl (split "(" r2)).
  { assert (Hl : k ++ "(" ++ m ++ "," ++ r2 = k ++ String "(" ((m ++ ",") ++ r2))
      by now norm_append.
    rewrite Hl, split_at_sep by assumption.
    rewrite split_append by (now rewrite contains_char_append, Hm3).
    fold r3. f_equal. f_equal. now norm_append. }
  (* the first argument *)
  assert (E5 : hd "" (split "," (strip (m ++ "," ++ r3))) = m).
  { change (m ++ "," ++ r3) with (m ++ String "," r3).
    rewrite strip_append_char by (assumption || reflexivity).
    now rewrite split_at_sep by assumption. }
  repeat split.
  - unfold field_name_of. rewrite E1. cbn [hd].
    unfold strip, strip_by.
    destruct f as [|x f]; [reflexivity|].
    rewrite lstrip_append by (try discriminate; now apply lstrip_fixed).
    rewrite rstrip_append_space by reflexivity. now apply rstrip_fixed.
  - unfold field_type_of, constructor_call.
    rewrite E1, nth_error_second, E2, E3, E4. cbn [hd]. now rewrite Hks.
  - unfold fkeymodel_of, constructor_call.
    rewrite E1, nth_error_second, E2, E3, E4, nth_error_second, E5.
    now rewrite Hms.
Qed.

(** The same for a call [f = models.K(M)] that ends the line. *)
Lemma relationship_call_closed (f k m : string) :
  contains "=" f = false -> strip f = f ->
  contains "=" k = false -> contains "." k = false ->
  contains "(" k = false -> strip k = k ->
  contains "=" m = false -> contains "." m = false ->
  contains "(" m = false -> contains "," m = false ->
  strip m = m -> strip_chars ")" m = m ->
  let l := f ++ " = models." ++ k ++ "(" ++ m ++ ")" in
  field_name_of l = f /\
  field_type_of (split "=" l) = Some k /\
  fkeymodel_of (split "=" l) = m.
Proof.
  intros Hf Hfs Hk1 Hk2 Hk3 Hks Hm1 Hm2 Hm3 Hm4 Hms Hmp l.
  (* the pieces around the [=] *)
  assert (E1 : split "=" l = [f ++ " "; " models." ++ k ++ "(" ++ m ++ ")"]).
  { assert (Hl : l = (f ++ " ") ++
                     String "=" (" models." ++ k ++ "(" ++ m ++ ")"))
      by (unfold l; now norm_append).
    rewrite Hl, split_at_sep by (now rewrite contains_char_append, Hf).
    rewrite split_no_sep; [reflexivity|].
    cbn [append contains startswith Ascii.eqb Bool.eqb andb orb].
    rewrite contains_char_append, Hk1.
    cbn [append contains startswith Ascii.eqb Bool.eqb andb orb].
    now rewrite contains_char_append, Hm1. }
  (* the right-hand side, stripped *)
  assert (E2 : strip (" models." ++ k ++ "(" ++ m ++ ")") =
               "models." ++ k ++ "(" ++ m ++ ")").
  { unfold strip, strip_by.
    assert (Hl : lstrip_by is_space (" models." ++ k ++ "(" ++ m ++ ")")
                 = ("models." ++ k ++ "(" ++ m) ++ String ")" "").
    { cbn [append]. rewrite lstrip_drop by reflexivity.
      rewrite lstrip_head by reflexivity. now norm_append. }
    rewrite Hl, rstrip_append_char by reflexivity. now norm_append. }
  (* the piece after the dot *)
  assert (E3 : nth_error (split "." ("models." ++ k ++ "(" ++ m ++ ")")) 1
               = Some (k ++ "(" ++ m ++ ")")).
  { assert (Hl : "models." ++ k ++ "(" ++ m ++ ")" =
                 "models" ++ String "." (k ++ "(" ++ m ++ ")"))
      by now norm_append.
    rewrite Hl, split_at_sep by reflexivity.
    rewrite split_no_sep; [reflexivity|].
    rewrite contains_char_append, Hk2.
    cbn [append contains startswith Ascii.eqb Bool.eqb andb orb].
    now rewrite contains_char_append, Hm2. }
  (* the pieces around the parenthesis *)
  assert (E4 : split "(" (k ++ "(" ++ m ++ ")") = [k; m ++ ")"]).
  { change (k ++ "(" ++ m ++ ")") with (k ++ String "(" (m ++ ")")).
    rewrite split_at_sep by assumption.
    rewrite split_no_sep; [reflexivity|].
    now rewrite contains_char_append, Hm3. }
  (* the only argument *)
  assert (E5 : strip (m ++ ")") = m ++ ")").
  { change (m ++ ")") with (m ++ String ")" "").
    now rewrite strip_append_char by (assumption || reflexivity). }
  assert (E6 : hd "" (split "," (m ++ ")")) = m ++ ")").
  { rewrite split_no_sep; [reflexivity|].
    now rewrite contains_char_append, Hm4. }
  assert (E7 : strip_chars ")" (m ++ ")") = m).
  { unfold strip_chars, strip_by in *.
    destruct m as [|x m]; [reflexivity|].
    rewrite lstrip_append by (try discriminate; now apply lstrip_fixed).
    change (String x m ++ ")") with (String x m ++ String ")" "").
    rewrite rstrip_append_space by reflexivity.
    now apply (rstrip_fixed (fun c => contains (String c "") ")")). }
  repeat split.
  - unfold field_name_of. rewrite E1. cbn [hd].
    unfold strip, strip_by.
    destruct f as [|x f]; [reflexivity|].
    rewrite lstrip_append by (try discriminate; now apply lstrip_fixed).
    rewrite rstrip_append_space by reflexivity. now apply rstrip_fixed.
  - unfold field_type_of, constructor_call.
    rewrite E1, nth_error_second, E2, E3, E4. cbn [hd]. now rewrite Hks.
  - unfold fkeymodel_of, constructor_call.
    rewrite E1, nth_error_second, E2, E3, E4, nth_error_second, E5, E6, E5.
    exact E7.
Qed.

(** What a line that adds to the buffer leaves behind. *)
Lemma line_read_grow l a e st : line_read l a e st (advance l (grow a e st)).
Proof. unfold line_read, advance, grow. cbn. repeat split. Qed.

Lemma line_read_none l st : line_read l [] [] st (advance l st).
Proof. rewrite <- (grow_nil st) at 2. apply line_read_grow. Qed.

Lemma line_read_one l x st :
  line_read l [x] [] st (advance l (append_model x st)).
Proof.
  rewrite <- (grow_nil st) at 2. rewrite append_model_grow.
  apply line_read_grow.
Qed.

Lemma line_read_two l x y st :
  line_read l [x; y] [] st (advance l (append_model y (append_model x st))).
Proof.
  rewrite <- (grow_nil st) at 2. rewrite !append_model_grow.
  apply line_read_grow.
Qed.

Lemma line_read_error l x e st :
  line_read l [x] [e] st (advance l (append_model x (append_error e st))).
Proof.
  rewrite <- (grow_nil st) at 2. rewrite append_error_grow, append_model_grow.
  apply line_read_grow.
Qed.

(** C7, as the code has it: a [ForeignKey] line that the primary-key test
    of line 257 does not take adds exactly two lines, in this order: the
    identifier field [<Field>ID] of type [int64] whose tag names
    [<field>_id] as foreign key and [id] as association foreign key, then
    the association field [<Field>] whose type is the text that line 268
    cuts out of the call; a [OneToOneField] line adds the same two lines,
    its tag without the association foreign key; nothing else changes.
    When the line is written [f = models.K(M, ...] or [f = models.K(M)]
    with a bare name [M], the field name found is [f] and the text cut out
    is the related name [M]. *)
Theorem relationship_pair (st : state) (raw : string) :
  in_model_def st = true ->
  is_field_line (prev_line st) raw = true ->
  is_pk_line (strip raw) = false ->
  let l := strip raw in
  let f := field_name_of l in
  let related := fkeymodel_of (split "=" l) in
  (field_type_of (split "=" l) = Some "ForeignKey" ->
   exists st',
     step st raw = Ok st' /\
     line_read l
       [tab ++ capitalize f ++ "ID" ++ tab ++ tab ++ "int64" ++ tab ++
        "`gorm:" ++ dq ++ "foreignKey:" ++ f ++
        "_id;association_foreignkey:id" ++ dq ++ "`";
        tab ++ capitalize f ++ tab ++ tab ++ related]
       [] st st') /\
  (field_type_of (split "=" l) = Some "OneToOneField" ->
   exists st',
     step st raw = Ok st' /\
     line_read l
       [tab ++ capitalize f ++ "ID" ++ tab ++ tab ++ "int64" ++ tab ++
        "`gorm:" ++ dq ++ "foreignKey:" ++ f ++ "_id" ++ dq ++ "`";
        tab ++ capitalize f ++ tab ++ tab ++ related]
       [] st st') /\
  (forall k f0 m tail,
      l = f0 ++ " = models." ++ k ++ "(" ++ m ++ tail ->
      k = "ForeignKey" \/ k = "OneToOneField" ->
      tail = ")" \/ startswith "," tail = true ->
      contains "=" f0 = false -> strip f0 = f0 ->
      contains "=" m = false -> contains "." m = false ->
      contains "(" m = false -> contains "," m = false ->
      strip m = m -> strip_chars ")" m = m ->
      field_type_of (split "=" l) = Some k /\ f = f0 /\ related = m).
Proof.
  intros Hin Hfl Hpk l f related. split; [|split].
  - intros Hft. eexists. split.
    + rewrite (step_field_line _ _ Hin Hfl).
      rewrite (translate_field_typed _ _ _ Hpk Hft).
      cbn [TYPE_MAP String.eqb Ascii.eqb Bool.eqb bind]. reflexivity.
    + apply line_read_two.
  - intros Hft. eexists. split.
    + rewrite (step_field_line _ _ Hin Hfl).
      rewrite (translate_field_typed _ _ _ Hpk Hft).
      cbn [TYPE_MAP String.eqb Ascii.eqb Bool.eqb bind]. reflexivity.
    + apply line_read_two.
  - intros k f0 m tail Hl Hk Htail Hf Hfs Hm1 Hm2 Hm3 Hm4 Hms Hmp.
    assert (Hkk : contains "=" k = false /\ contains "." k = false /\
                  contains "(" k = false /\ strip k = k)
      by (destruct Hk as [-> | ->]; repeat split; reflexivity).
    destruct Hkk as (Hk1 & Hk2 & Hk3 & Hks).
    unfold f, related. rewrite Hl. destruct Htail as [-> |Hc].
    + destruct (relationship_call_closed f0 k m Hf Hfs Hk1 Hk2 Hk3 Hks
                  Hm1 Hm2 Hm3 Hm4 Hms Hmp) as (Hname & Hft & Hrel).
      now repeat split.
    + apply startswith_split in Hc. destruct Hc as (rest & ->).
      destruct (relationship_call_parts f0 k m rest Hf Hfs Hk1 Hk2 Hk3 Hks
                  Hm1 Hm2 Hm3 Hm4 Hms Hmp) as (Hname & Hft & Hrel).
      now repeat split.
Qed.

Lemma relationship_pair_witness :
  let st := open_model "UserProfile" (set_in_model_def true initial) in
  exists st',
    step st
      "    district = models.ForeignKey(District, null=True, on_delete=models.SET_NULL)"
    = Ok st' /\
    line_read
      "district = models.ForeignKey(District, null=True, on_delete=models.SET_NULL)"
      [tab ++ "DistrictID" ++ tab ++ tab ++ "int64" ++ tab ++
       "`gorm:" ++ dq ++ "foreignKey:district_id;association_foreignkey:id" ++
       dq ++ "`";
       tab ++ "District" ++ tab ++ tab ++ "District"]
      [] st st'.
Proof.
  destruct (relationship_pair
              (open_model "UserProfile" (set_in_model_def true initial))
              "    district = models.ForeignKey(District, null=True, on_delete=models.SET_NULL)"
              eq_refl eq_refl eq_refl) as (Hpair & _ & Hcall).
  destruct (Hcall "ForeignKey" "district" "District"
              ", null=True, on_delete=models.SET_NULL)"
              eq_refl (or_introl eq_refl) (or_intror eq_refl)
              eq_refl eq_refl eq_refl eq_refl eq_refl eq_refl eq_refl eq_refl)
    as (Hk & _ & _).
  exact (Hpair Hk).
Defined.

(** C7 as stated fails in two ways.  For a related declaration that is
    named by a dotted path in quotes, the association field has the text
    up to the dot as its type, not the name of the declaration; and a
    [ForeignKey] field named [id] on a line that mentions [primary_key]
    gives the single primary-key line, not the pair. *)
Lemma relationship_pair_cut_name :
  let st := open_model "Book" (set_in_model_def true initial) in
  (exists st',
      step st
        "    owner = models.ForeignKey('auth.User', on_delete=models.CASCADE)"
      = Ok st' /\
      current_model st' =
        ["type Book struct {";
         tab ++ "OwnerID" ++ tab ++ tab ++ "int64" ++ tab ++ "`gorm:" ++ dq ++
         "foreignKey:owner_id;association_foreignkey:id" ++ dq ++ "`";
         tab ++ "Owner" ++ tab ++ tab ++ "'auth"]) /\
  (exists st',
      step st
        "    id = models.ForeignKey(Other, primary_key=True, on_delete=models.CASCADE)"
      = Ok st' /\
      current_model st' =
        ["type Book struct {";
         tab ++ "ID" ++ tab ++ tab ++ "int64" ++ tab ++ tab ++ "`gorm:" ++ dq ++
         "primaryKey" ++ dq ++ "`"]).
Proof.
  cbv zeta. split; eexists; (split; [vm_compute; reflexivity|reflexivity]).
Qed.

(** C4, as the code has it: when the related name cannot be taken from the
    call of a relationship constructor, the placeholder [########] stands
    for the related type in the lines that are added, the scan goes on, and
    the list of errors is left as it was: nothing is recorded. *)
Theorem malformed_relationship (st : state) (raw ft : string) :
  in_model_def st = true ->
  is_field_line (prev_line st) raw = true ->
  is_pk_line (strip raw) = false ->
  field_type_of (split "=" (strip raw)) = Some ft ->
  In ft ["ForeignKey"; "ManyToManyField"; "OneToOneField"] ->
  fkeymodel_raises (split "=" (strip raw)) = true ->
  let f := field_name_of (strip raw) in
  exists st',
    step st raw = Ok st' /\
    errors st' = errors st /\
    out_lines st' = out_lines st /\
    current_model st' =
    app (current_model st)
      (if String.eqb ft "ManyToManyField" then
         [tab ++ "\ !! NOTE: m2m key relationship/name may not work";
          tab ++ capitalize f ++ tab ++ tab ++ "[]" ++ "########" ++ tab ++
          many2many_tag (table_name st) f]
       else
         [self_id_field f
            (if String.eqb ft "ForeignKey" then foreignkey_tag f
             else onetoone_tag f);
          tab ++ capitalize f ++ tab ++ tab ++ "########"]).
Proof.
  intros Hin Hfl Hpk Hft Hkind Hraise f.
  assert (Hm : fkeymodel_of (split "=" (strip raw)) = "########").
  { unfold fkeymodel_raises in Hraise. unfold fkeymodel_of.
    destruct (constructor_call (split "=" (strip raw))); [|reflexivity].
    now destruct (nth_error (split "(" s) 1). }
  rewrite (step_field_line _ _ Hin Hfl).
  rewrite (translate_field_typed _ _ _ Hpk Hft), Hm.
  destruct Hkind as [<-|[<-|[<-|[]]]];
    cbn [TYPE_MAP String.eqb Ascii.eqb Bool.eqb bind];
    eexists; (split; [reflexivity|]);
    unfold append_model, advance;
    cbn [current_model set_current_model errors out_lines set_lines
         set_prev_line];
    rewrite <- app_assoc; repeat split.
Qed.

Lemma malformed_relationship_witness :
  let st := open_model "Foo" (set_in_model_def true initial) in
  exists st',
    step st "    owner = models.ForeignKey" = Ok st' /\
    errors st' = [] /\
    out_lines st' = [] /\
    current_model st' =
    ["type Foo struct {";
     tab ++ "OwnerID" ++ tab ++ tab ++ "int64" ++ tab ++ "`gorm:" ++ dq ++
     "foreignKey:owner_id;association_foreignkey:id" ++ dq ++ "`";
     tab ++ "Owner" ++ tab ++ tab ++ "########"].
Proof.
  apply (malformed_relationship
           (open_model "Foo" (set_in_model_def true initial))
           "    owner = models.ForeignKey" "ForeignKey");
    solve [reflexivity | simpl; auto].
Defined.

(** C4 as stated fails: the placeholder is written and no error is
    recorded for it. *)
Lemma malformed_relationship_unrecorded :
  fkeymodel_raises (split "=" "owner = models.ForeignKey") = true /\
  convert_lines
    ["class Foo(models.Model):"; "    owner = models.ForeignKey"]
    false false false =
  Ok (["type Foo struct {";
       tab ++ "OwnerID" ++ tab ++ tab ++ "int64" ++ tab ++ "`gorm:" ++ dq ++
       "foreignKey:owner_id;association_foreignkey:id" ++ dq ++ "`";
       tab ++ "Owner" ++ tab ++ tab ++ "########";
       "}"; ""],
      []).
Proof. split; vm_compute; reflexivity. Qed.

(** ** The [db_table] assignment *)

(** C6, as the code has it: inside a declaration, a line that is no
    boundary is taken as the explicit table name exactly when it holds
    [db_table] and [=], does not start with [#], and the line read just
    before it (empty lines count), once stripped, holds [class Meta:]
    somewhere.  Such a line sets the table name and adds nothing to the
    buffer; any other line leaves the table name and its flags alone. *)
Theorem db_table_routing (st0 : state) (pre : list string) (p raw : string)
    (st : state) :
  scan st0 (pre ++ [p]) = Ok st ->
  in_model_def st = true ->
  is_def raw = false ->
  is_class_header (strip raw) = false ->
  let l := strip raw in
  let routed :=
    contains "db_table" l && contains "=" l && negb (startswith "#" l) &&
    contains "class Meta:" (strip p) in
  (routed = true ->
   exists rhs,
     nth_error (split "=" l) 1 = Some rhs /\
     step st raw =
     Ok (advance l
           (set_table_name (unquote rhs)
              (set_got_custom_tables true (set_custom_table_name true st))))) /\
  (routed = false ->
   forall st',
     step st raw = Ok st' ->
     custom_table_name st' = custom_table_name st /\
     table_name st' = table_name st /\
     got_custom_tables st' = got_custom_tables st).
Proof.
  intros Hscan Hin Hdef Hcls l routed.
  assert (Hroute : is_db_table (prev_line st) l = routed).
  { unfold is_db_table, routed. now rewrite (scan_prev_line _ _ _ _ Hscan). }
  split; intros Hr; rewrite Hr in Hroute.
  - assert (Heq : contains "=" l = true).
    { unfold routed in Hr. split_andb. assumption. }
    destruct (split_second _ _ Heq) as (rhs & Hrhs). exists rhs.
    split; [assumption|]. unfold step. rewrite Hdef. cbn [andb].
    fold l. unfold l at 1. rewrite Hcls, Hin, Hroute, Hrhs. reflexivity.
  - intros st'. now apply step_keeps_table_name.
Qed.

Lemma db_table_routing_witness :
  let st := mkState [] ["type Foo struct {"] false false true "Foo"
              "app_foos" "app_foos" false false false "class Meta:" 3 [] in
  let l := strip "        db_table = 'foo'" in
  let routed :=
    contains "db_table" l && contains "=" l && negb (startswith "#" l) &&
    contains "class Meta:" (strip "    class Meta:") in
  (routed = true ->
   exists rhs,
     nth_error (split "=" l) 1 = Some rhs /\
     step st "        db_table = 'foo'" =
     Ok (advance l
           (set_table_name (unquote rhs)
              (set_got_custom_tables true (set_custom_table_name true st))))) /\
  (routed = false ->
   forall st',
     step st "        db_table = 'foo'" = Ok st' ->
     custom_table_name st' = custom_table_name st /\
     table_name st' = table_name st /\
     got_custom_tables st' = got_custom_tables st).
Proof.
  apply (db_table_routing initial ["class Foo(models.Model):"]
           "    class Meta:" "        db_table = 'foo'");
    reflexivity.
Defined.

(** C6 as stated fails in both directions.  An empty line between the
    [class Meta:] line and the assignment keeps the assignment from being
    taken, although the last non-empty line before it is the marker; and a
    line that merely holds the marker, here a comment, is enough for the
    assignment to be taken. *)
Lemma db_table_routing_not_exact :
  (exists st,
      scan initial
        ["class Foo(models.Model):"; "    class Meta:"; "";
         "        db_table = 'foo'"] = Ok st /\
      custom_table_name st = false /\ table_name st = "app_foos") /\
  (exists st,
      scan initial
        ["class Foo(models.Model):"; "    # class Meta: is left out";
         "    db_table = 'foo'"] = Ok st /\
      String.eqb (strip "    # class Meta: is left out") "class Meta:" = false /\
      custom_table_name st = true /\ table_name st = "foo").
Proof.
  split; eexists; (split; [vm_compute; reflexivity|]); repeat split.
Qed.

(** ** Input without any declaration *)

Lemma idle_step st raw :
  in_model_def st = false ->
  is_class_header (strip raw) = false ->
  step st raw = Ok (advance (strip raw) st).
Proof.
  intros Hin Hcls. unfold step. rewrite Hin, andb_false_r, Hcls, Hin.
  reflexivity.
Qed.

Lemma idle_scan st in_lines :
  in_model_def st = false ->
  existsb (fun raw => is_class_header (strip raw)) in_lines = false ->
  exists p n, scan st in_lines = Ok (set_lines n (set_prev_line p st)).
Proof.
  revert st. induction in_lines as [|raw rest IH]; intros st Hin Hex.
  - exists (prev_line st), (lines st). now destruct st.
  - cbn [existsb] in Hex. apply orb_false_elim in Hex. destruct Hex as [Hc Hr].
    cbn [scan]. rewrite (idle_step _ _ Hin Hc). cbn [bind].
    destruct (IH (advance (strip raw) st) Hin Hr) as (p & n & ->).
    now exists p, n.
Qed.

(** C3, what the code does: for input in which no line is a class header,
    the closing step of line 323 still runs on the empty buffer, so the
    lines written are the enabled blocks followed by a closing brace and
    an empty line; no error file is written. *)
Theorem no_declaration_output (in_lines : list string) (h u g : bool) :
  existsb (fun raw => is_class_header (strip raw)) in_lines = false ->
  convert_lines in_lines h u g = Ok ((scaffolding h u g ++ ["}"; ""])%list, []) /\
  convert in_lines h u g =
  Ok (join nl (scaffolding h u g ++ ["}"; ""]) ++
      (if h then HELPER_REF else ""), None).
Proof.
  intros Hex.
  assert (Hl : convert_lines in_lines h u g =
               Ok ((scaffolding h u g ++ ["}"; ""])%list, [])).
  { unfold convert_lines.
    destruct (idle_scan initial in_lines eq_refl Hex) as (p & n & ->).
    cbn [bind]. unfold out_prefix, scaffolding, finish.
    cbn [last_model_closed set_lines set_prev_line initial negb].
    rewrite close_default_out by reflexivity.
    cbn [got_custom_tables found_user_table found_group_table out_lines
         current_model errors set_out_lines set_current_model set_lines
         set_prev_line initial negb andb app].
    reflexivity. }
  split; [assumption|]. unfold convert. rewrite Hl. reflexivity.
Qed.

Lemma no_declaration_output_witness :
  convert_lines ["import os"; ""; "def helper(x):"; "    return x"]
    false false false = Ok (["}"; ""], []) /\
  convert ["import os"; ""; "def helper(x):"; "    return x"]
    false false false = Ok ("}" ++ nl, None).
Proof.
  apply (no_declaration_output
           ["import os"; ""; "def helper(x):"; "    return x"]
           false false false).
  reflexivity.
Defined.

(** ** Closing a declaration that has no explicit table name *)

(** C2, as the code has it: a declaration that is open and has no explicit
    table name is closed by an unindented [def], by the next class header
    or by the end of the input, and each of the three sends to the output
    the buffered lines unchanged, then the closing brace and an empty
    line, and nothing else: no [TableName] function is written. *)
Theorem close_without_db_table (in_lines : list string) (st : state) :
  scan initial in_lines = Ok st ->
  in_model_def st = true ->
  custom_table_name st = false ->
  let closed := (out_lines st ++ current_model st ++ ["}"; ""])%list in
  out_lines (close_model_def st) = closed /\
  (forall raw,
      is_def raw = true ->
      exists st',
        step st raw = Ok st' /\ out_lines st' = closed /\
        current_model st' = [] /\ in_model_def st' = false) /\
  (forall raw name,
      is_class_header (strip raw) = true ->
      model_name_of (strip raw) = Some name ->
      exists st',
        step st raw = Ok st' /\ out_lines st' = closed /\
        current_model st' = [type_line name]) /\
  out_lines (finish st) = closed.
Proof.
  intros Hs Hin Hc closed.
  assert (Hclose : out_lines (close_model_def st) = closed)
    by now rewrite close_default_out.
  split; [assumption|]. split; [|split].
  - intros raw Hdef. pose proof (is_def_not_header _ Hdef) as Hcls.
    eexists. split.
    + unfold step. rewrite Hdef, Hin. cbn [andb].
      rewrite Hcls. unfold close_and_reset.
      destruct (close_keeps_fields (set_in_model_def false st))
        as (_ & _ & Hi & _).
      cbn [in_model_def set_current_model set_last_model_closed].
      rewrite Hi. cbn [in_model_def set_in_model_def bind]. reflexivity.
    + unfold advance.
      cbn [out_lines current_model in_model_def set_lines set_prev_line
           set_current_model set_last_model_closed].
      rewrite close_out_lines.
      destruct (close_keeps_fields (set_in_model_def false st))
        as (_ & _ & Hi & _).
      rewrite Hi.
      cbn [custom_table_name out_lines current_model in_model_def
           set_in_model_def].
      now rewrite Hc.
  - intros raw name Hcls Hname.
    assert (Hdef : is_def raw = false).
    { destruct (is_def raw) eqn:E; [|reflexivity].
      apply is_def_not_header in E. congruence. }
    eexists. split.
    + unfold step. rewrite Hdef. cbn [andb]. rewrite Hcls, Hin, Hname.
      reflexivity.
    + destruct (open_model_fields name
                  (set_last_model_closed false
                     (set_in_model_def true (close_and_reset st))))
        as (Hcm & Hout & _).
      unfold advance.
      cbn [out_lines current_model set_lines set_prev_line].
      rewrite Hcm, Hout. unfold close_and_reset.
      cbn [out_lines current_model set_last_model_closed set_in_model_def
           set_current_model app].
      now split.
  - unfold finish.
    rewrite (scan_open_not_closed initial _ _ (fun _ => eq_refl) Hs Hin).
    exact Hclose.
Qed.

Lemma close_without_db_table_witness :
  let st := mkState [] ["type Foo struct {"] false false true "Foo"
              "app_foos" "app_foos" false false false
              "class Foo(models.Model):" 2 [] in
  let closed := (out_lines st ++ current_model st ++ ["}"; ""])%list in
  out_lines (close_model_def st) = closed /\
  (forall raw,
      is_def raw = true ->
      exists st',
        step st raw = Ok st' /\ out_lines st' = closed /\
        current_model st' = [] /\ in_model_def st' = false) /\
  (forall raw name,
      is_class_header (strip raw) = true ->
      model_name_of (strip raw) = Some name ->
      exists st',
        step st raw = Ok st' /\ out_lines st' = closed /\
        current_model st' = [type_line name]) /\
  out_lines (finish st) = closed.
Proof.
  apply (close_without_db_table ["class Foo(models.Model):"]); reflexivity.
Defined.

(** C2 as stated fails: a declaration without [db_table] is written
    without any [TableName] function. *)
Lemma close_without_db_table_no_accessor :
  let out := ["type Foo struct {";
              tab ++ "Size" ++ tab ++ tab ++ "int" ++ tab ++
                "`gorm:" ++ dq ++ "column:size" ++ dq ++ "`";
              "}"; ""] in
  convert_lines
    ["class Foo(models.Model):"; "    size = models.IntegerField()"]
    false false false = Ok (out, []) /\
  existsb (contains "TableName") out = false /\
  existsb (contains "app_foos") out = false.
Proof. vm_compute. repeat split; reflexivity. Qed.

(** ** What a scan keeps true *)

Lemma line_not_default_user fu n x :
  (n = "User" -> fu = true) ->
  basic_line x = true \/ x = type_line n ->
  not_default_user fu x.
Proof.
  intros Hn [H| ->]; split.
  - intros ->. discriminate H.
  - intros _ ->. discriminate H.
  - discriminate.
  - intros Hfu E. unfold type_line in E.
    change "type User struct {" with ("type " ++ "User" ++ " struct {") in E.
    cbn [append] in E. injection E as E.
    change (String "U" (String "s" (String "e" (String "r" " struct {"))))
      with ("User" ++ " struct {") in E.
    apply append_inv_tail in E. rewrite (Hn E) in Hfu. discriminate.
Qed.

Lemma close_out_lines_ok st :
  Forall (fun x => basic_line x = true \/ x = type_line (model_name st))
    (current_model st) ->
  Forall (not_default_user (found_user_table st)) (out_lines st) ->
  contains " " (model_name st) = false ->
  (model_name st = "User" -> found_user_table st = true) ->
  (custom_table_name st = true ->
   default_table_name st = default_name (model_name st)) ->
  Forall (not_default_user (found_user_table st))
    (out_lines (close_model_def st)).
Proof.
  intros Hcm Hout Hsp Hu Hd. rewrite close_out_lines.
  apply Forall_app. split; [assumption|].
  assert (Hall : Forall
            (fun x => basic_line x = true \/ x = type_line (model_name st))
            ((current_model st ++ ["}"; ""]) ++ accessor_lines st)).
  { repeat (apply Forall_app; split); [assumption| |];
      repeat constructor. }
  destruct (custom_table_name st).
  - rewrite (Hd eq_refl). apply Forall_map.
    revert Hall. apply Forall_impl. intros x Hx.
    apply (line_not_default_user _ (model_name st)); [assumption|].
    destruct Hx as [Hx| ->].
    + left. now apply replace_basic_line.
    + right. now apply replace_type_line.
  - apply Forall_app in Hall. destruct Hall as [Hall _].
    revert Hall. apply Forall_impl. intros x Hx.
    now apply (line_not_default_user _ (model_name st)).
Qed.

Lemma not_default_user_mono fu fu' x :
  (fu' = false -> fu = false) -> not_default_user fu x -> not_default_user fu' x.
Proof. intros Hm [H1 H2]. split; [assumption|]. intros H. apply H2, Hm, H. Qed.

Lemma closed_out_tidy st :
  tidy st ->
  Forall (not_default_user (found_user_table st))
    (out_lines (close_model_def st)).
Proof.
  intros (Hcm & Hout & Hsp & Hu & Hd & _).
  apply close_out_lines_ok; auto.
Qed.

Lemma def_closed_tidy raw st : tidy st -> tidy (def_closed raw st).
Proof.
  intros Ht. unfold def_closed.
  destruct (is_def raw && in_model_def st); [|assumption].
  pose proof (closed_out_tidy _ Ht) as Hclosed.
  destruct Ht as (Hcm & Hout & Hsp & Hu & Hd & Hnil).
  unfold close_and_reset, tidy.
  cbn [current_model out_lines model_name found_user_table in_model_def
       custom_table_name default_table_name set_current_model
       set_last_model_closed].
  destruct (close_keeps_fields (set_in_model_def false st))
    as (_ & _ & Hi & Hm & Hdt & _ & Hc & Hf & _).
  rewrite Hi, Hm, Hdt, Hc, Hf.
  cbn [in_model_def model_name default_table_name custom_table_name
       found_user_table set_in_model_def].
  repeat split; auto.
  - rewrite close_out_lines in *.
    cbn [out_lines current_model custom_table_name default_table_name
         table_name accessor_lines model_name set_in_model_def].
    exact Hclosed.
  - intros [H|H]; [discriminate|auto].
Qed.

Lemma step_tidy st raw st' : tidy st -> step st raw = Ok st' -> tidy st'.
Proof.
  intros Ht H. apply (def_closed_tidy raw) in Ht.
  apply step_cases in H. cbv zeta in H.
  set (st1 := def_closed raw st) in *. set (l := strip raw) in *.
  destruct H as [(_ & name & Hname & ->)|[(_ & Hin & rhs & ->)|(_ & a & e & -> & Ha & Hnil)]].
  - set (sx := if in_model_def st1 then close_and_reset st1 else st1).
    assert (Hx : current_model sx = [] /\
                 Forall (not_default_user (found_user_table sx)) (out_lines sx)).
    { unfold sx. destruct (in_model_def st1) eqn:Hin.
      - split; [reflexivity|]. unfold close_and_reset.
        cbn [found_user_table out_lines set_current_model
             set_last_model_closed].
        destruct (close_keeps_fields st1) as (_ & _ & _ & _ & _ & _ & _ & Hf & _).
        rewrite Hf. now apply closed_out_tidy.
      - destruct Ht as (_ & Hout & _ & _ & _ & Hn). split; auto. }
    destruct Hx as [Hx1 Hx2].
    destruct (open_model_fields name
                (set_last_model_closed false (set_in_model_def true sx)))
      as (Hcm & Hout & Hm & Hfu & _ & Hd & _ & Hc & Hi & _).
    unfold tidy, advance.
    cbn [current_model out_lines model_name found_user_table in_model_def
         custom_table_name default_table_name set_lines set_prev_line].
    rewrite Hcm, Hout, Hm, Hfu, Hd, Hi.
    cbn [current_model out_lines found_user_table in_model_def
         set_last_model_closed set_in_model_def].
    rewrite Hx1. repeat split.
    + constructor; [now right|constructor].
    + revert Hx2. apply Forall_impl. intros x. apply not_default_user_mono.
      intros H. now apply orb_false_elim in H.
    + now apply (model_name_no_space l).
    + intros ->. reflexivity.
    + discriminate.
  - destruct Ht as (Hcm & Hout & Hsp & Hu & Hd & Hnil).
    unfold tidy, advance. cbn. repeat split; auto; congruence.
  - destruct Ht as (Hcm & Hout & Hsp & Hu & Hd & Hn).
    unfold tidy, advance, grow. cbn. repeat split; auto.
    + apply Forall_app. split; [assumption|].
      revert Ha. apply Forall_impl. intros x Hx. left.
      unfold basic_line. rewrite Hx. now rewrite !orb_true_r.
    + intros Hin. now rewrite (Hn Hin), (Hnil Hin).
Qed.

Lemma initial_tidy : tidy initial.
Proof.
  unfold tidy. cbn. repeat split; auto; try discriminate.
  intros [H|H]; discriminate H.
Qed.

Lemma scan_tidy st in_lines st' :
  tidy st -> scan st in_lines = Ok st' -> tidy st'.
Proof.
  revert st. induction in_lines as [|raw rest IH]; intros st Ht H.
  - now injection H as <-.
  - cbn [scan] in H. apply bind_ok in H. destruct H as (s & Hs & H).
    apply (IH s); [|assumption]. now apply (step_tidy st raw).
Qed.

(** ** Closing a declaration that has an explicit table name *)

Lemma contains_before_space d m r :
  contains " " d = false ->
  String.length m < String.length d ->
  contains d (String " " r) = false ->
  contains d (m ++ String " " r) = false.
Proof.
  intros Hd. induction m as [|c m IH]; intros Hl Hr; [assumption|].
  cbn [String.length] in Hl. cbn [append contains]. apply orb_false_intro.
  - destruct (startswith d (String c (m ++ String " " r))) eqn:E;
      [|reflexivity].
    apply (startswith_past_space _ (String c m)) in E.
    cbn [String.length] in E. destruct E; [lia|congruence].
  - apply IH; [lia|assumption].
Qed.

(** The first line of the [TableName] function never holds the default
    table name of its declaration. *)
Lemma contains_default_func_line n :
  contains " " n = false ->
  contains (default_name n) ("func (" ++ n ++ ") TableName() string {") = false.
Proof.
  intros Hn. cbn [append].
  rewrite !contains_default_head by reflexivity.
  change (n ++ String ")" (String " " "TableName() string {"))
    with (n ++ ")" ++ String " " "TableName() string {").
  rewrite <- append_assoc. apply contains_before_space.
  - now apply default_name_no_space.
  - rewrite default_name_length, length_append. cbn. lia.
  - reflexivity.
Qed.

Lemma default_name_ending n c :
  Ascii.eqb "s" c = false -> endswith (String c "") (default_name n) = false.
Proof.
  intros H. unfold default_name.
  change ("app_" ++ lower n ++ "s") with ("app_" ++ lower n ++ String "s" "").
  rewrite <- append_assoc. now apply endswith_char_snoc.
Qed.

(** The [return] line of the [TableName] function after the replacement of
    line 199: only the name between the quote marks is touched. *)
Lemma replace_return_line n t :
  replace (default_name n) t (tab ++ "return " ++ dq ++ t ++ dq) =
  tab ++ "return " ++ dq ++ replace (default_name n) t t ++ dq.
Proof.
  cbn [append tab dq]. rewrite !replace_default_head by reflexivity.
  unfold dq. rewrite replace_snoc;
    [reflexivity|apply default_name_nonempty|now apply default_name_ending].
Qed.

(** Closing sends the same lines whatever [in_model_def] is. *)
Lemma close_out_in_def b st :
  out_lines (close_model_def (set_in_model_def b st)) =
  out_lines (close_model_def st).
Proof. now rewrite !close_out_lines. Qed.

(** The three events that close an open declaration send the lines that
    [__close_model_def] sends. *)
Lemma closing_events st closed :
  in_model_def st = true ->
  last_model_closed st = false ->
  out_lines (close_model_def st) = closed ->
  (forall raw,
      is_def raw = true ->
      exists st',
        step st raw = Ok st' /\ out_lines st' = closed /\
        current_model st' = [] /\ in_model_def st' = false) /\
  (forall raw name,
      is_class_header (strip raw) = true ->
      model_name_of (strip raw) = Some name ->
      exists st',
        step st raw = Ok st' /\ out_lines st' = closed /\
        current_model st' = [type_line name]) /\
  out_lines (finish st) = closed.
Proof.
  intros Hin Hlast Hclose. split; [|split].
  - intros raw Hdef. pose proof (is_def_not_header _ Hdef) as Hcls.
    eexists. split.
    + unfold step. rewrite Hdef, Hin. cbn [andb].
      rewrite Hcls. unfold close_and_reset.
      destruct (close_keeps_fields (set_in_model_def false st))
        as (_ & _ & Hi & _).
      cbn [in_model_def set_current_model set_last_model_closed].
      rewrite Hi. cbn [in_model_def set_in_model_def bind]. reflexivity.
    + unfold advance.
      cbn [out_lines current_model in_model_def set_lines set_prev_line
           set_current_model set_last_model_closed].
      rewrite close_out_in_def.
      destruct (close_keeps_fields (set_in_model_def false st))
        as (_ & _ & Hi & _).
      rewrite Hi. now repeat split.
  - intros raw name Hcls Hname.
    assert (Hdef : is_def raw = false).
    { destruct (is_def raw) eqn:E; [|reflexivity].
      apply is_def_not_header in E. congruence. }
    eexists. split.
    + unfold step. rewrite Hdef. cbn [andb]. rewrite Hcls, Hin, Hname.
      reflexivity.
    + destruct (open_model_fields name
                  (set_last_model_closed false
                     (set_in_model_def true (close_and_reset st))))
        as (Hcm & Hout & _).
      unfold advance.
      cbn [out_lines current_model set_lines set_prev_line].
      rewrite Hcm, Hout. unfold close_and_reset.
      cbn [out_lines current_model set_last_model_closed set_in_model_def
           set_current_model app].
      now split.
  - unfold finish. now rewrite Hlast.
Qed.

(** C1, what the code does: a declaration that is open and has an explicit
    table name is closed by an unindented [def], by the next class header
    or by the end of the input, and each of the three sends to the output
    the buffered lines with every occurrence of the default name replaced
    by the explicit one, then the closing brace and the [TableName]
    function.  That function was added to the block before the replacement
    ran over it, so what it returns is the explicit name with the default
    name replaced inside it once more: it is the explicit name exactly
    when the explicit name does not hold the default one, or is the
    default one. *)
Theorem explicit_table_name_block (in_lines : list string) (st : state) :
  scan initial in_lines = Ok st ->
  in_model_def st = true ->
  custom_table_name st = true ->
  let d := default_table_name st in
  let t := table_name st in
  let closed :=
    app (out_lines st)
      (app (map (replace d t) (current_model st))
         ["}"; "";
          "func (" ++ model_name st ++ ") TableName() string {";
          tab ++ "return " ++ dq ++ replace d t t ++ dq;
          "}"; ""]) in
  d = "app_" ++ lower (model_name st) ++ "s" /\
  out_lines (close_model_def st) = closed /\
  (forall raw,
      is_def raw = true ->
      exists st',
        step st raw = Ok st' /\ out_lines st' = closed /\
        current_model st' = [] /\ in_model_def st' = false) /\
  (forall raw name,
      is_class_header (strip raw) = true ->
      model_name_of (strip raw) = Some name ->
      exists st',
        step st raw = Ok st' /\ out_lines st' = closed /\
        current_model st' = [type_line name]) /\
  out_lines (finish st) = closed /\
  (replace d t t = t <-> contains d t = false \/ d = t).
Proof.
  intros Hs Hin Hc d t closed.
  pose proof (scan_tidy _ _ _ initial_tidy Hs) as (_ & _ & Hsp & _ & Hd & _).
  specialize (Hd (or_intror Hc)). fold d in Hd.
  assert (Hne : d <> "") by (rewrite Hd; apply default_name_nonempty).
  assert (Hclose : out_lines (close_model_def st) = closed).
  { rewrite close_out_lines, Hc. unfold closed, accessor_lines. fold d t.
    rewrite !map_app. cbn [map].
    assert (R0 : replace d t "}" = "}") by (rewrite Hd; reflexivity).
    assert (R1 : replace d t "" = "") by (rewrite Hd; reflexivity).
    assert (R2 : replace d t ("func (" ++ model_name st ++
                              ") TableName() string {") =
                 "func (" ++ model_name st ++ ") TableName() string {").
    { apply replace_absent; [assumption|].
      rewrite Hd. now apply contains_default_func_line. }
    assert (R3 : replace d t (tab ++ "return " ++ dq ++ t ++ dq) =
                 tab ++ "return " ++ dq ++ replace d t t ++ dq)
      by (rewrite Hd; apply replace_return_line).
    rewrite R0, R1, R2, R3. now rewrite <- app_assoc. }
  split; [exact Hd|]. split; [exact Hclose|].
  pose proof (scan_open_not_closed initial _ _ (fun _ => eq_refl) Hs Hin)
    as Hlast.
  destruct (closing_events st closed Hin Hlast Hclose) as (E1 & E2 & E3).
  repeat split; try assumption.
  - intros Heq. destruct (contains d t) eqn:E; [right|now left].
    destruct (string_dec d t) as [Hdt|Hdt]; [assumption|].
    now destruct (replace_changes d t t Hne Hdt E).
  - intros [H| ->]; [now apply replace_absent|apply replace_itself].
Qed.

(** The theorem at an input whose explicit table name holds the default
    one: the [TableName] function returns [app_foos_v2_v2]. *)
Lemma explicit_table_name_block_witness :
  let st := mkState []
              ["type Foo struct {";
               tab ++ "\ !! NOTE: m2m key relationship/name may not work";
               tab ++ "Tags" ++ tab ++ tab ++ "[]Tag" ++ tab ++ "`gorm:" ++ dq ++
               "many2many:app_foos_tags;joinForeignKey:app_foos_id" ++ dq ++ "`"]
              false true true "Foo" "app_foos" "app_foos_v2" true false false
              "db_table = 'app_foos_v2'" 5 [] in
  let closed :=
    ["type Foo struct {";
     tab ++ "\ !! NOTE: m2m key relationship/name may not work";
     tab ++ "Tags" ++ tab ++ tab ++ "[]Tag" ++ tab ++ "`gorm:" ++ dq ++
     "many2many:app_foos_v2_tags;joinForeignKey:app_foos_v2_id" ++ dq ++ "`";
     "}"; "";
     "func (Foo) TableName() string {";
     tab ++ "return " ++ dq ++ "app_foos_v2_v2" ++ dq;
     "}"; ""] in
  scan initial
    ["class Foo(models.Model):";
     "    tags = models.ManyToManyField(Tag)";
     "    class Meta:";
     "        db_table = 'app_foos_v2'"] = Ok st /\
  out_lines (close_model_def st) = closed /\
  out_lines (finish st) = closed /\
  (replace "app_foos" "app_foos_v2" "app_foos_v2" = "app_foos_v2" <->
   contains "app_foos" "app_foos_v2" = false \/ "app_foos" = "app_foos_v2").
Proof.
  cbv zeta. split; [reflexivity|].
  destruct (explicit_table_name_block
              ["class Foo(models.Model):";
               "    tags = models.ManyToManyField(Tag)";
               "    class Meta:";
               "        db_table = 'app_foos_v2'"]
              (mkState []
                 ["type Foo struct {";
                  tab ++ "\ !! NOTE: m2m key relationship/name may not work";
                  tab ++ "Tags" ++ tab ++ tab ++ "[]Tag" ++ tab ++ "`gorm:" ++
                  dq ++ "many2many:app_foos_tags;joinForeignKey:app_foos_id" ++
                  dq ++ "`"]
                 false true true "Foo" "app_foos" "app_foos_v2" true false
                 false "db_table = 'app_foos_v2'" 5 [])
              eq_refl eq_refl eq_refl) as (_ & Hclose & _ & _ & Hfin & Hiff).
  split; [exact Hclose|]. split; [exact Hfin|exact Hiff].
Defined.

(** ** The flags for [User] and [Group] *)

Lemma def_closed_found raw st :
  found_user_table (def_closed raw st) = found_user_table st /\
  found_group_table (def_closed raw st) = found_group_table st.
Proof.
  unfold def_closed. destruct (is_def raw && in_model_def st); [|now split].
  unfold close_and_reset.
  destruct (close_keeps_fields (set_in_model_def false st))
    as (_ & _ & _ & _ & _ & _ & _ & Hu & Hg & _).
  cbn [found_user_table found_group_table set_current_model
       set_last_model_closed]. now rewrite Hu, Hg.
Qed.

Lemma step_found st raw st' :
  step st raw = Ok st' ->
  found_user_table st' = found_user_table st || declares "User" raw /\
  found_group_table st' = found_group_table st || declares "Group" raw.
Proof.
  intros H. apply step_cases in H. cbv zeta in H.
  destruct (def_closed_found raw st) as [Hu Hg].
  set (st1 := def_closed raw st) in *. unfold declares.
  destruct H as [(Hc & name & Hname & ->)|[(Hc & _ & rhs & ->)|(Hc & a & e & -> & _)]];
    rewrite Hc.
  - rewrite Hname.
    destruct (open_model_fields name
                (set_last_model_closed false
                   (set_in_model_def true
                      (if in_model_def st1 then close_and_reset st1 else st1))))
      as (_ & _ & _ & Hfu & Hfg & _).
    unfold advance.
    cbn [found_user_table found_group_table set_lines set_prev_line].
    rewrite Hfu, Hfg.
    cbn [found_user_table found_group_table set_last_model_closed
         set_in_model_def andb].
    assert (Hx : found_user_table
                   (if in_model_def st1 then close_and_reset st1 else st1) =
                 found_user_table st /\
                 found_group_table
                   (if in_model_def st1 then close_and_reset st1 else st1) =
                 found_group_table st).
    { destruct (in_model_def st1); [|now split]. unfold close_and_reset.
      destruct (close_keeps_fields st1) as (_ & _ & _ & _ & _ & _ & _ & Hu' & Hg' & _).
      cbn [found_user_table found_group_table set_current_model
           set_last_model_closed]. now rewrite Hu', Hg', Hu, Hg. }
    destruct Hx as [-> ->]. split; apply orb_comm.
  - cbn. now rewrite Hu, Hg, !orb_false_r.
  - cbn. now rewrite Hu, Hg, !orb_false_r.
Qed.

Lemma scan_found st in_lines st' :
  scan st in_lines = Ok st' ->
  found_user_table st' = found_user_table st || existsb (declares "User") in_lines /\
  found_group_table st' = found_group_table st || existsb (declares "Group") in_lines.
Proof.
  revert st. induction in_lines as [|raw rest IH]; intros st H.
  - injection H as <-. cbn. now rewrite !orb_false_r.
  - cbn [scan] in H. apply bind_ok in H. destruct H as (s & Hs & H).
    apply step_found in Hs. destruct Hs as [Hu Hg].
    destruct (IH s H) as [-> ->]. rewrite Hu, Hg. cbn [existsb].
    now rewrite !orb_assoc.
Qed.

Lemma finish_found st :
  found_user_table (finish st) = found_user_table st /\
  found_group_table (finish st) = found_group_table st /\
  got_custom_tables (finish st) = got_custom_tables st.
Proof.
  unfold finish. destruct (negb (last_model_closed st)); [|now repeat split].
  destruct (close_keeps_fields st) as (_ & Hc & _ & _ & _ & _ & _ & Hu & Hg & _).
  now repeat split.
Qed.

(** The default declarations are in the output when their toggle is on
    and no class header has their name. *)
Lemma default_blocks_present in_lines h u g out errs :
  convert_lines in_lines h u g = Ok (out, errs) ->
  (u = true -> existsb (declares "User") in_lines = false ->
   exists pre post, out = (pre ++ split newline USER_MODEL ++ post)%list) /\
  (g = true -> existsb (declares "Group") in_lines = false ->
   exists pre post, out = (pre ++ split newline GROUP_MODEL ++ post)%list).
Proof.
  intros H. apply convert_lines_ok in H.
  destruct H as (st & Hs & -> & _). apply scan_found in Hs.
  destruct Hs as [Hu Hg]. cbn [initial found_user_table found_group_table orb]
    in Hu, Hg.
  destruct (finish_found st) as (Fu & Fg & _).
  unfold out_prefix. rewrite Fu, Fg, Hu, Hg.
  split; intros -> ->; cbn [negb andb].
  - exists ((if h then split newline IMPORTS else []) ++
            (if got_custom_tables (finish st)
             then split newline TABLE_HELPER else []))%list.
    eexists. rewrite <- !app_assoc. reflexivity.
  - exists ((if h then split newline IMPORTS else []) ++
            (if got_custom_tables (finish st)
             then split newline TABLE_HELPER else []) ++
            (if negb (existsb (declares "User") in_lines) && u
             then split newline USER_MODEL else []))%list.
    exists (out_lines (finish st)). rewrite <- !app_assoc. reflexivity.
Qed.

(** C9: the flags that hold back the default [User] and [Group]
    declarations are set exactly when some class header has the extracted
    name [User], respectively [Group]; when no header has that very name
    and the toggle is on, the default declaration is part of the output. *)
Theorem found_flags_exact (in_lines : list string) :
  (forall st,
      scan initial in_lines = Ok st ->
      found_user_table st = existsb (declares "User") in_lines /\
      found_group_table st = existsb (declares "Group") in_lines) /\
  (forall h u g out errs,
      convert_lines in_lines h u g = Ok (out, errs) ->
      (u = true -> existsb (declares "User") in_lines = false ->
       exists pre post, out = (pre ++ split newline USER_MODEL ++ post)%list) /\
      (g = true -> existsb (declares "Group") in_lines = false ->
       exists pre post, out = (pre ++ split newline GROUP_MODEL ++ post)%list)).
Proof.
  split.
  - intros st H. apply scan_found in H. exact H.
  - intros h u g out errs. apply default_blocks_present.
Qed.

Lemma found_flags_exact_witness :
  let inp := ["class UserProfile(models.Model):";
              "    nick = models.CharField(max_length=8)";
              "class Users(models.Model):";
              "    age = models.IntegerField()"] in
  existsb (declares "User") inp = false /\
  existsb (declares "Group") inp = false /\
  exists out errs,
    convert_lines inp false true true = Ok (out, errs) /\
    (exists pre post, out = (pre ++ split newline USER_MODEL ++ post)%list) /\
    (exists pre post, out = (pre ++ split newline GROUP_MODEL ++ post)%list).
Proof.
  cbv zeta. split; [reflexivity|]. split; [reflexivity|].
  match eval vm_compute in
        (convert_lines
           ["class UserProfile(models.Model):";
            "    nick = models.CharField(max_length=8)";
            "class Users(models.Model):";
            "    age = models.IntegerField()"] false true true) with
  | Ok (?o, ?e) =>
      exists o, e;
      assert (E : convert_lines
                    ["class UserProfile(models.Model):";
                     "    nick = models.CharField(max_length=8)";
                     "class Users(models.Model):";
                     "    age = models.IntegerField()"] false true true =
                  Ok (o, e)) by (vm_compute; reflexivity);
      split; [exact E|];
      destruct (found_flags_exact
                  ["class UserProfile(models.Model):";
                   "    nick = models.CharField(max_length=8)";
                   "class Users(models.Model):";
                   "    age = models.IntegerField()"]) as [_ H];
      destruct (H false true true o e E) as [Hu Hg];
      split; [apply Hu; reflexivity|apply Hg; reflexivity]
  end.
Defined.

(** ** The default [User] declaration *)

Lemma finish_out_tidy st :
  tidy st ->
  Forall (not_default_user (found_user_table st)) (out_lines (finish st)).
Proof.
  intros Ht. unfold finish. destruct (negb (last_model_closed st)).
  - now apply closed_out_tidy.
  - now destruct Ht as (_ & Hout & _).
Qed.

Lemma not_default_user_count fu xs :
  Forall (not_default_user fu) xs ->
  count_occ string_dec xs "func(User) TableName() string {" = 0 /\
  (fu = false -> count_occ string_dec xs "type User struct {" = 0).
Proof.
  intros H. split; [|intros Hfu]; apply count_occ_not_In; intros Hin;
    rewrite Forall_forall in H; destruct (H _ Hin) as [H1 H2]; auto.
  now apply H2.
Qed.

(** C8: with the [User] toggle on and no [User] declaration in the input,
    the output holds the default [User] declaration, all its lines in one
    piece, and holds its first line and its [TableName] line once each;
    with the toggle off, the [TableName] line of the default declaration
    is nowhere in the output, and neither is a [User] declaration at all
    when the input has none.  Both hold whatever the [Group] toggle is. *)
Theorem default_user_once (in_lines : list string) (h g : bool) :
  (forall out errs,
      convert_lines in_lines h true g = Ok (out, errs) ->
      existsb (declares "User") in_lines = false ->
      (exists pre post, out = (pre ++ split newline USER_MODEL ++ post)%list) /\
      count_occ string_dec out "type User struct {" = 1 /\
      count_occ string_dec out "func(User) TableName() string {" = 1) /\
  (forall out errs,
      convert_lines in_lines h false g = Ok (out, errs) ->
      ~ In "func(User) TableName() string {" out /\
      (existsb (declares "User") in_lines = false ->
       ~ In "type User struct {" out)).
Proof.
  split; intros out errs H.
  - intros Hno. pose proof H as H'.
    apply default_blocks_present in H'. destruct H' as [Hblock _].
    split; [now apply Hblock|].
    apply convert_lines_ok in H. destruct H as (st & Hs & -> & _).
    pose proof (scan_tidy _ _ _ initial_tidy Hs) as Ht.
    apply finish_out_tidy, not_default_user_count in Ht.
    apply scan_found in Hs. destruct Hs as [Hu _].
    cbn [initial found_user_table orb] in Hu. rewrite Hno in Hu.
    rewrite Hu in Ht. destruct Ht as [Hf Hty]. specialize (Hty eq_refl).
    destruct (finish_found st) as (Fu & _ & _).
    rewrite !count_occ_app, Hf, Hty. unfold out_prefix. rewrite Fu, Hu.
    destruct h, g, (got_custom_tables (finish st)),
      (found_group_table (finish st)); split; vm_compute; reflexivity.
  - apply convert_lines_ok in H. destruct H as (st & Hs & -> & _).
    pose proof (scan_tidy _ _ _ initial_tidy Hs) as Ht.
    apply finish_out_tidy, not_default_user_count in Ht.
    apply scan_found in Hs. destruct Hs as [Hu _].
    cbn [initial found_user_table orb] in Hu.
    destruct Ht as [Hf Hty].
    split; [|intros Hno; rewrite Hno in Hu; specialize (Hty Hu)];
      apply (count_occ_not_In string_dec); rewrite count_occ_app;
      [rewrite Hf|rewrite Hty]; unfold out_prefix;
      destruct h, g, (got_custom_tables (finish st)),
        (found_user_table (finish st)), (found_group_table (finish st));
      vm_compute; reflexivity.
Qed.

Lemma default_user_once_witness :
  let inp := ["class Account(models.Model):";
              "    owner = models.ForeignKey(User, on_delete=models.CASCADE)"] in
  existsb (declares "User") inp = false /\
  (exists out errs,
      convert_lines inp true true false = Ok (out, errs) /\
      (exists pre post, out = (pre ++ split newline USER_MODEL ++ post)%list) /\
      count_occ string_dec out "type User struct {" = 1 /\
      count_occ string_dec out "func(User) TableName() string {" = 1) /\
  (exists out errs,
      convert_lines inp true false false = Ok (out, errs) /\
      ~ In "func(User) TableName() string {" out /\
      ~ In "type User struct {" out).
Proof.
  cbv zeta. split; [reflexivity|].
  destruct (default_user_once
              ["class Account(models.Model):";
               "    owner = models.ForeignKey(User, on_delete=models.CASCADE)"]
              true false) as [Hon Hoff].
  split.
  - match eval vm_compute in
          (convert_lines
             ["class Account(models.Model):";
              "    owner = models.ForeignKey(User, on_delete=models.CASCADE)"]
             true true false) with
    | Ok (?o, ?e) =>
        exists o, e; split; [vm_compute; reflexivity|];
        apply (Hon o e); vm_compute; reflexivity
    end.
  - match eval vm_compute in
          (convert_lines
             ["class Account(models.Model):";
              "    owner = models.ForeignKey(User, on_delete=models.CASCADE)"]
             true false false) with
    | Ok (?o, ?e) =>
        exists o, e; split; [vm_compute; reflexivity|];
        destruct (Hoff o e) as [H1 H2]; [vm_compute; reflexivity|];
        split; [exact H1|apply H2; reflexivity]
    end.
Defined.

(** * Further properties *)

(** ** When a step stops *)

Lemma split_second_none c s :
  nth_error (split c s) 1 = None <-> contains (String c "") s = false.
Proof.
  split.
  - intros H. destruct (contains (String c "") s) eqn:E; [|reflexivity].
    destruct (split_second _ _ E) as (x & Hx). congruence.
  - intros H. now rewrite (split_no_sep _ _ H).
Qed.

Lemma model_name_of_none l :
  model_name_of l = None <-> contains " " l = false.
Proof.
  unfold model_name_of. rewrite <- split_second_none.
  destruct (nth_error (split " " l) 1); split; congruence.
Qed.

Lemma field_type_of_none l :
  contains "=" l = true ->
  field_type_of (split "=" l) = None <->
  exists rhs,
    nth_error (split "=" l) 1 = Some rhs /\ contains "." (strip rhs) = false.
Proof.
  intros H. destruct (split_second _ _ H) as (rhs & Hrhs).
  unfold field_type_of, constructor_call. rewrite Hrhs. split.
  - intros Hn. exists rhs. split; [reflexivity|].
    apply split_second_none.
    destruct (nth_error (split "." (strip rhs)) 1); [discriminate|reflexivity].
  - intros (r & [= <-] & Hr). apply split_second_none in Hr. now rewrite Hr.
Qed.

Lemma translate_field_stop_iff st l f :
  translate_field st l = Stop f <->
  field_type_of (split "=" l) = None /\ contains "TreeForeignKey" l = false /\
  f = SysExit.
Proof.
  split.
  - intros H. destruct (translate_field_stops _ _ _ H) as [H1 H2].
    unfold translate_field in H. rewrite H1, H2 in H. injection H as <-.
    now repeat split.
  - intros (H1 & H2 & ->). unfold translate_field. now rewrite H1, H2.
Qed.

(** X1: a step stops in two cases only.  A class header that holds no
    space raises the [IndexError] of line 225; and, inside a declaration, a
    field assignment whose right-hand side (up to the next [=]) holds no
    dot and that does not mention [TreeForeignKey] ends the run through
    [sys.exit()]. *)
Theorem step_stops_iff (st : state) (raw : string) (f : failure) :
  step st raw = Stop f <->
  (is_class_header (strip raw) = true /\ contains " " (strip raw) = false /\
   f = IndexError) \/
  (in_model_def st = true /\ is_field_line (prev_line st) raw = true /\
   (exists rhs,
       nth_error (split "=" (strip raw)) 1 = Some rhs /\
       contains "." (strip rhs) = false) /\
   contains "TreeForeignKey" (strip raw) = false /\ f = SysExit).
Proof.
  set (l := strip raw). split.
  - intros H. unfold step in H. fold (def_closed raw st) in H. cbv zeta in H.
    fold l in H. set (st1 := def_closed raw st) in *.
    destruct (is_class_header l) eqn:Hcls.
    { left. destruct (model_name_of l) eqn:E; [discriminate|].
      injection H as <-. apply model_name_of_none in E. now repeat split. }
    right.
    assert (Hst1 : in_model_def st1 = true -> st1 = st /\
                   in_model_def st = true /\ is_def raw = false).
    { unfold st1, def_closed. destruct (is_def raw); cbn [andb].
      - destruct (in_model_def st) eqn:Hin; [|congruence].
        unfold close_and_reset.
        destruct (close_keeps_fields (set_in_model_def false st))
          as (_ & _ & Hi & _).
        cbn [in_model_def set_current_model set_last_model_closed].
        rewrite Hi. discriminate.
      - now intros ->. }
    destruct (in_model_def st1) eqn:Hin; [|discriminate].
    destruct (Hst1 eq_refl) as (E & Hin' & Hdef). rewrite E in *.
    destruct (is_db_table (prev_line st) l) eqn:Hdb.
    { unfold is_db_table in Hdb. split_andb.
      match goal with
      | He : contains "=" l = true |- _ =>
          destruct (split_second _ _ He) as (rhs & Hrhs)
      end.
      rewrite Hrhs in H. discriminate. }
    destruct (startswith (dq ++ dq ++ dq) l) eqn:Hdoc; [discriminate|].
    destruct (startswith "#" l) eqn:Hcom; [discriminate|].
    destruct (contains "=" l) eqn:Heq; [|discriminate]. cbn [andb] in H.
    destruct (contains "models." l) eqn:Hmod; [|discriminate].
    destruct (translate_field st l) as [s|f'] eqn:Ht; [discriminate|].
    injection H as <-. apply translate_field_stop_iff in Ht.
    destruct Ht as (H1 & H2 & ->).
    apply (field_type_of_none _ Heq) in H1.
    split; [assumption|]. split; [|now repeat split].
    unfold is_field_line. fold l.
    now rewrite Hdef, Hcls, Hdb, Hdoc, Hcom, Heq, Hmod.
  - intros [(Hcls & Hsp & ->)|(Hin & Hfl & Hrhs & Htree & ->)].
    + apply model_name_of_none in Hsp. unfold step. cbv zeta. fold l.
      now rewrite Hcls, Hsp.
    + rewrite (step_field_line _ _ Hin Hfl). fold l.
      assert (Heq : contains "=" l = true).
      { unfold is_field_line in Hfl. split_andb. assumption. }
      apply (field_type_of_none _ Heq) in Hrhs.
      assert (Ht : translate_field st l = Stop SysExit)
        by (apply translate_field_stop_iff; now repeat split).
      now rewrite Ht.
Qed.

Lemma step_stops_iff_witness :
  step (open_model "Foo" (set_in_model_def true initial))
    "    models.total = 5" = Stop SysExit /\
  step initial "class(Model):" = Stop IndexError.
Proof.
  split.
  - apply (step_stops_iff (open_model "Foo" (set_in_model_def true initial))
             "    models.total = 5" SysExit).
    right. split; [reflexivity|]. split; [reflexivity|].
    split; [now exists " 5"|now split].
  - apply (step_stops_iff initial "class(Model):" IndexError).
    left. now repeat split.
Defined.

(** ** Runs that reach the end *)



(** ** The line counter, and what only grows *)

Lemma close_keeps_position st :
  lines (close_model_def st) = lines st /\
  prev_line (close_model_def st) = prev_line st.
Proof. unfold close_model_def. now destruct (custom_table_name st). Qed.

Lemma def_closed_position raw st :
  lines (def_closed raw st) = lines st /\
  prev_line (def_closed raw st) = prev_line st.
Proof.
  unfold def_closed. destruct (is_def raw && in_model_def st); [|now split].
  unfold close_and_reset.
  cbn [lines prev_line set_current_model set_last_model_closed].
  destruct (close_keeps_position (set_in_model_def false st)) as [-> ->].
  now split.
Qed.

Lemma step_lines st raw st' :
  step st raw = Ok st' -> lines st' = lines st + 1.
Proof.
  intros H. apply step_cases in H. cbv zeta in H.
  destruct (def_closed_position raw st) as [Hl _].
  set (st1 := def_closed raw st) in *.
  destruct H as [(_ & name & _ & ->)|[(_ & _ & rhs & ->)|(_ & a & e & -> & _)]].
  - unfold advance, open_model. cbn [lines set_lines].
    destruct (String.eqb name "User"), (String.eqb name "Group");
      cbn [lines set_lines set_model_name set_found_user_table
           set_found_group_table set_table_name set_default_table_name
           set_custom_table_name append_model set_current_model
           set_last_model_closed set_in_model_def];
      (destruct (in_model_def st1);
       [unfold close_and_reset;
        cbn [lines set_current_model set_last_model_closed];
        destruct (close_keeps_position st1) as [-> _]|]);
      now rewrite Hl.
  - cbn. now rewrite Hl.
  - cbn. now rewrite Hl.
Qed.

Lemma scan_lines st in_lines st' :
  scan st in_lines = Ok st' -> lines st' = lines st + List.length in_lines.
Proof.
  revert st. induction in_lines as [|raw rest IH]; intros st H.
  - injection H as <-. cbn. lia.
  - cbn [scan] in H. apply bind_ok in H. destruct H as (s & Hs & H).
    apply step_lines in Hs. apply IH in H. cbn [List.length]. lia.
Qed.

(** X3: the counter [lines] is the 1-based number of the line about to be
    read: after a scan of the whole input it is the number of lines plus
    one, and the previous line is the last line of the input, stripped. *)
Theorem scan_counts_lines (in_lines : list string) (st : state) :
  scan initial in_lines = Ok st ->
  lines st = List.length in_lines + 1 /\
  prev_line st = last (map strip in_lines) "".
Proof.
  intros H. split.
  - apply scan_lines in H. cbn [initial lines] in H. lia.
  - destruct in_lines as [|a l] using rev_ind; [now injection H as <-|].
    rewrite map_app. cbn [map]. rewrite last_last.
    now apply scan_prev_line in H.
Qed.

Lemma scan_counts_lines_witness :
  lines (mkState [] ["type Foo struct {"] false false true "Foo" "app_foos"
           "app_foos" false false false "def save(self):" 3 []) = 2 + 1 /\
  prev_line (mkState [] ["type Foo struct {"] false false true "Foo" "app_foos"
               "app_foos" false false false "def save(self):" 3 []) =
  last (map strip ["class Foo(models.Model):"; "    def save(self):"]) "".
Proof.
  apply (scan_counts_lines
           ["class Foo(models.Model):"; "    def save(self):"]).
  reflexivity.
Defined.

Lemma step_grows st raw st' :
  step st raw = Ok st' ->
  (exists more, out_lines st' = out_lines st ++ more)%list /\
  (exists errs, errors st' = errors st ++ errs)%list.
Proof.
  intros H. apply step_cases in H. cbv zeta in H.
  assert (H1 : (exists more, out_lines (def_closed raw st) =
                             out_lines st ++ more)%list /\
               errors (def_closed raw st) = errors st).
  { unfold def_closed. destruct (is_def raw && in_model_def st).
    - unfold close_and_reset.
      cbn [out_lines errors set_current_model set_last_model_closed].
      rewrite close_out_lines.
      destruct (close_keeps_fields (set_in_model_def false st))
        as (_ & _ & _ & _ & _ & _ & _ & _ & _ & He).
      rewrite He. split; [now eexists|reflexivity].
    - split; [exists []; now rewrite app_nil_r|reflexivity]. }
  set (st1 := def_closed raw st) in *. destruct H1 as [(m1 & Hm1) He1].
  destruct H as [(_ & name & _ & ->)|[(_ & _ & rhs & ->)|(_ & a & e & -> & _)]].
  - destruct (open_model_fields name
                (set_last_model_closed false
                   (set_in_model_def true
                      (if in_model_def st1 then close_and_reset st1 else st1))))
      as (_ & Hout & _ & _ & _ & _ & _ & _ & _ & _ & Herr).
    unfold advance. cbn [out_lines errors set_lines set_prev_line].
    rewrite Hout, Herr.
    cbn [out_lines errors set_last_model_closed set_in_model_def].
    destruct (in_model_def st1).
    + unfold close_and_reset.
      cbn [out_lines errors set_current_model set_last_model_closed].
      rewrite close_out_lines, Hm1.
      destruct (close_keeps_fields st1) as (_ & _ & _ & _ & _ & _ & _ & _ & _ & He).
      rewrite He, He1. split; [|exists []; now rewrite app_nil_r].
      rewrite <- app_assoc. now eexists.
    + rewrite Hm1, He1. split; [now exists m1|exists []; now rewrite app_nil_r].
  - cbn. rewrite Hm1, He1.
    split; [now exists m1|exists []; now rewrite app_nil_r].
  - cbn. rewrite Hm1, He1. split; [now exists m1|now exists e].
Qed.

(** X4: what has gone to the output or to the list of errors is never
    taken back or changed by the lines that follow: a scan only adds at
    the end of both. *)
Theorem scan_only_appends (st : state) (in_lines : list string) (st' : state) :
  scan st in_lines = Ok st' ->
  (exists more, out_lines st' = out_lines st ++ more)%list /\
  (exists errs, errors st' = errors st ++ errs)%list.
Proof.
  revert st. induction in_lines as [|raw rest IH]; intros st H.
  - injection H as <-. split; exists []; now rewrite app_nil_r.
  - cbn [scan] in H. apply bind_ok in H. destruct H as (s & Hs & H).
    apply step_grows in Hs. destruct Hs as [(m1 & Hm1) (e1 & He1)].
    destruct (IH s H) as [(m2 & Hm2) (e2 & He2)].
    rewrite Hm2, He2, Hm1, He1, <- !app_assoc. split; now eexists.
Qed.

Lemma scan_only_appends_witness :
  (exists more,
      out_lines (mkState ["type A struct {"; "}"; ""] ["type B struct {"]
                   false false true "B" "app_bs" "app_bs" false false false
                   "class B(Model):" 2 []) =
      ["type A struct {"; "}"; ""] ++ more)%list /\
  (exists errs,
      errors (mkState ["type A struct {"; "}"; ""] ["type B struct {"]
                false false true "B" "app_bs" "app_bs" false false false
                "class B(Model):" 2 []) = [] ++ errs)%list.
Proof.
  apply (scan_only_appends
           (mkState ["type A struct {"; "}"; ""] [] true false false "A"
              "app_as" "app_as" false false false "" 1 [])
           ["class B(Model):"]).
  reflexivity.
Defined.

(** ** Lines outside any declaration *)

Lemma last_cons {A : Type} (a : A) (l : list A) (d : A) :
  last (a :: l) d = last l a.
Proof.
  revert a d. induction l as [|b l IH]; intros a d; [reflexivity|].
  change (last (a :: b :: l) d) with (last (b :: l) d). now rewrite !IH.
Qed.

(** X5: while no declaration is open (before the first class header, or
    after an unindented [def] has closed one), lines that are no class
    header are ignored: whatever they hold, a scan over them changes only
    the previous line and the line counter. *)
Theorem outside_lines_ignored (st : state) (in_lines : list string) :
  in_model_def st = false ->
  existsb (fun raw => is_class_header (strip raw)) in_lines = false ->
  scan st in_lines =
  Ok (set_lines (lines st + List.length in_lines)
        (set_prev_line (last (map strip in_lines) (prev_line st)) st)).
Proof.
  revert st. induction in_lines as [|raw rest IH]; intros st Hin Hex.
  - destruct st. cbn. now rewrite Nat.add_0_r.
  - cbn [existsb] in Hex. apply orb_false_elim in Hex. destruct Hex as [Hc Hr].
    cbn [scan]. rewrite (idle_step _ _ Hin Hc). cbn [bind].
    rewrite (IH (advance (strip raw) st) Hin Hr).
    cbn [map List.length]. rewrite last_cons. destruct st.
    cbv beta iota delta
      [advance set_lines set_prev_line out_lines current_model
       last_model_closed got_custom_tables in_model_def model_name
       default_table_name table_name custom_table_name found_user_table
       found_group_table prev_line lines errors].
    do 2 f_equal. lia.
Qed.

Lemma outside_lines_ignored_witness :
  let st := mkState ["type A struct {"; "}"; ""] [] true false false "A"
              "app_as" "app_as" false false false "def helper():" 4 [] in
  scan st ["    x = models.CharField()"; "    return x"] =
  Ok (set_lines (4 + 2) (set_prev_line "return x" st)).
Proof.
  apply (outside_lines_ignored
           (mkState ["type A struct {"; "}"; ""] [] true false false "A"
              "app_as" "app_as" false false false "def helper():" 4 [])
           ["    x = models.CharField()"; "    return x"]); reflexivity.
Defined.

(** ** The declarations in the output *)

Lemma basic_not_type x : basic_line x = true -> is_type_line x = false.
Proof.
  unfold basic_line. intros H.
  repeat (apply orb_true_iff in H; destruct H as [H|H]).
  - apply String.eqb_eq in H. now subst x.
  - apply startswith_split in H. now destruct H as (r & ->).
  - apply startswith_split in H. now destruct H as (r & ->).
  - apply startswith_split in H. now destruct H as (r & ->).
Qed.

Lemma closing_lines_basic st :
  Forall (fun x => basic_line x = true \/ x = type_line (model_name st))
    (current_model st) ->
  Forall (fun x => basic_line x = true \/ x = type_line (model_name st))
    ((current_model st ++ ["}"; ""]) ++ accessor_lines st).
Proof.
  intros H. repeat (apply Forall_app; split); [assumption| |];
    repeat constructor.
Qed.

Lemma replaced_line_kind n t x :
  contains " " n = false ->
  basic_line x = true \/ x = type_line n ->
  (basic_line (replace (default_name n) t x) = true \/
   replace (default_name n) t x = type_line n) /\
  is_type_line (replace (default_name n) t x) = is_type_line x /\
  (is_type_line x = true -> replace (default_name n) t x = x).
Proof.
  intros Hn [H| ->].
  - pose proof (replace_basic_line n t x H) as H'. split; [now left|].
    rewrite (basic_not_type _ H), (basic_not_type _ H').
    split; [reflexivity|discriminate].
  - rewrite (replace_type_line n t Hn). split; [now right|now split].
Qed.

Lemma filter_replaced n t xs :
  contains " " n = false ->
  Forall (fun x => basic_line x = true \/ x = type_line n) xs ->
  filter is_type_line (map (replace (default_name n) t) xs) =
  filter is_type_line xs.
Proof.
  intros Hn H. induction H as [|x xs Hx _ IH]; [reflexivity|].
  cbn [map filter].
  destruct (replaced_line_kind n t x Hn Hx) as (_ & -> & Hfix).
  rewrite IH. destruct (is_type_line x); [now rewrite Hfix|reflexivity].
Qed.

(** What closing a declaration sends to the output: one line that opens a
    [struct] for each such line of the buffer, and lines of the known
    kinds only. *)
Lemma close_sends st :
  tidy st ->
  filter is_type_line (out_lines (close_model_def st)) =
  (filter is_type_line (out_lines st) ++
   filter is_type_line (current_model st))%list /\
  (shaped st -> shaped (close_model_def st)).
Proof.
  intros (Hcm & _ & Hsp & _ & Hd & _).
  pose proof (closing_lines_basic st Hcm) as Hall.
  rewrite close_out_lines. unfold shaped. rewrite close_out_lines.
  destruct (custom_table_name st).
  - rewrite (Hd (or_intror eq_refl)). split.
    + rewrite filter_app, (filter_replaced _ _ _ Hsp Hall), !filter_app.
      change (filter is_type_line ["}"; ""]) with (@nil string).
      change (filter is_type_line (accessor_lines st)) with (@nil string).
      now rewrite !app_nil_r.
    + intros Hs. apply Forall_app. split; [assumption|].
      apply Forall_map. revert Hall. apply Forall_impl. intros x Hx.
      destruct (replaced_line_kind (model_name st) (table_name st) x Hsp Hx)
        as ([H|H] & _); [now left|right]. now rewrite H.
  - split.
    + rewrite !filter_app.
      change (filter is_type_line ["}"; ""]) with (@nil string).
      now rewrite !app_nil_r.
    + intros Hs. apply Forall_app. split; [assumption|].
      apply Forall_app in Hall. destruct Hall as [Hall _].
      revert Hall. apply Forall_impl. intros x [H| ->]; [now left|now right].
Qed.

Lemma def_closed_sends raw st :
  tidy st ->
  (filter is_type_line (out_lines (def_closed raw st)) ++
   filter is_type_line (current_model (def_closed raw st)) =
   filter is_type_line (out_lines st) ++
   filter is_type_line (current_model st))%list /\
  (shaped st -> shaped (def_closed raw st)).
Proof.
  intros Ht. unfold def_closed.
  destruct (is_def raw && in_model_def st); [|now split].
  destruct (close_sends _ Ht) as [Hf Hs]. unfold shaped in *.
  unfold close_and_reset.
  cbn [out_lines current_model set_current_model set_last_model_closed filter].
  rewrite app_nil_r. rewrite !close_out_lines in *.
  unfold accessor_lines in *.
  cbn [out_lines current_model custom_table_name default_table_name table_name
       model_name set_in_model_def].
  split; [exact Hf|exact Hs].
Qed.

Lemma step_sends st raw st' :
  tidy st ->
  step st raw = Ok st' ->
  (filter is_type_line (out_lines st') ++
   filter is_type_line (current_model st') =
   (filter is_type_line (out_lines st) ++
    filter is_type_line (current_model st)) ++
   map type_line (declared_names [raw]))%list /\
  (shaped st -> shaped st').
Proof.
  intros Ht H. destruct (def_closed_sends raw st Ht) as [Hf1 Hs1].
  apply (def_closed_tidy raw) in Ht. apply step_cases in H. cbv zeta in H.
  unfold declared_names. cbn [flat_map]. rewrite app_nil_r.
  set (st1 := def_closed raw st) in *. rewrite <- Hf1.
  destruct H as [(Hc & name & Hname & ->)|[(Hc & _ & rhs & ->)|(Hc & a & e & -> & Ha & _)]];
    rewrite Hc; try rewrite Hname.
  - destruct (open_model_fields name
                (set_last_model_closed false
                   (set_in_model_def true
                      (if in_model_def st1 then close_and_reset st1 else st1))))
      as (Hcm & Hout & _).
    unfold shaped, advance.
    cbn [out_lines current_model set_lines set_prev_line].
    rewrite Hcm, Hout.
    cbn [out_lines current_model set_last_model_closed set_in_model_def].
    destruct (close_sends _ Ht) as [Hf Hs].
    destruct (in_model_def st1) eqn:Hin.
    + unfold close_and_reset.
      cbn [out_lines current_model set_current_model set_last_model_closed
           app filter map].
      change (is_type_line (type_line name)) with true. cbv iota.
      rewrite Hf. split; [reflexivity|]. intros H. now apply Hs, Hs1.
    + destruct Ht as (_ & _ & _ & _ & _ & Hnil). rewrite (Hnil Hin).
      cbn [app filter map].
      change (is_type_line (type_line name)) with true. cbv iota.
      rewrite app_nil_r. split; [reflexivity|]. intros H. now apply Hs1.
  - cbn. rewrite app_nil_r. split; [reflexivity|exact Hs1].
  - unfold shaped. cbn. rewrite app_nil_r, filter_app.
    assert (Hn : filter is_type_line a = []).
    { induction Ha as [|x xs Hx _ IH]; [reflexivity|]. cbn [filter].
      apply startswith_split in Hx. destruct Hx as (r & ->). exact IH. }
    rewrite Hn, app_nil_r. split; [reflexivity|exact Hs1].
Qed.

Lemma scan_sends st in_lines st' :
  tidy st ->
  scan st in_lines = Ok st' ->
  (filter is_type_line (out_lines st') ++
   filter is_type_line (current_model st') =
   (filter is_type_line (out_lines st) ++
    filter is_type_line (current_model st)) ++
   map type_line (declared_names in_lines))%list /\
  (shaped st -> shaped st').
Proof.
  revert st. induction in_lines as [|raw rest IH]; intros st Ht H.
  - injection H as <-. cbn. now rewrite app_nil_r.
  - cbn [scan] in H. apply bind_ok in H. destruct H as (s & Hs & H).
    destruct (step_sends _ _ _ Ht Hs) as [Hf1 Hs1].
    destruct (IH s (step_tidy _ _ _ Ht Hs) H) as [Hf2 Hs2].
    split; [|auto]. rewrite Hf2, Hf1.
    change (raw :: rest) with ([raw] ++ rest)%list.
    unfold declared_names. now rewrite flat_map_app, map_app, <- !app_assoc.
Qed.

Lemma finish_sends in_lines st :
  scan initial in_lines = Ok st ->
  filter is_type_line (out_lines (finish st)) =
  map type_line (declared_names in_lines) /\
  shaped (finish st).
Proof.
  intros Hs. pose proof (scan_tidy _ _ _ initial_tidy Hs) as Ht.
  destruct (scan_sends _ _ _ initial_tidy Hs) as [Hf Hsh].
  cbn [initial out_lines current_model filter app] in Hf.
  assert (Hi : shaped initial) by constructor. specialize (Hsh Hi).
  unfold finish. destruct (last_model_closed st) eqn:Hl; cbn [negb].
  - assert (Hin : in_model_def st = false).
    { destruct (in_model_def st) eqn:E; [|reflexivity].
      pose proof (scan_open_not_closed initial _ _ (fun _ => eq_refl) Hs E).
      congruence. }
    destruct Ht as (_ & _ & _ & _ & _ & Hnil). rewrite (Hnil Hin) in Hf.
    cbn [filter] in Hf. rewrite app_nil_r in Hf. now split.
  - destruct (close_sends _ Ht) as [Hc Hs']. rewrite Hc. split; auto.
Qed.

(** X6: no declaration that the scan opens is lost, doubled or reordered:
    the lines of the output that open a [struct], the scaffolding aside,
    are exactly one line [type <name> struct {] for each input line that
    line 217 takes as a class header (once stripped it starts with [class]
    and ends with [Model):]), in the order of the input.  A class whose
    header ends otherwise, such as [class User(AbstractUser):], is no
    header for line 217 and gets no such line. *)
Theorem declarations_in_order (in_lines : list string) (st : state) :
  scan initial in_lines = Ok st ->
  filter is_type_line (out_lines (finish st)) =
  map (fun name => "type " ++ name ++ " struct {") (declared_names in_lines).
Proof. intros H. now destruct (finish_sends _ _ H). Qed.

Lemma declarations_in_order_witness :
  let st := mkState
              ["type B struct {";
               tab ++ "N" ++ tab ++ tab ++ "int" ++ tab ++ "`gorm:" ++ dq ++
               "column:n" ++ dq ++ "`"; "}"; ""]
              ["type A struct {"] false false true "A" "app_as" "app_as"
              false false false "class A(models.Model):" 4 [] in
  filter is_type_line (out_lines (finish st)) =
  map (fun name => "type " ++ name ++ " struct {")
    (declared_names
       ["class B(models.Model):"; "    n = models.IntegerField()";
        "class A(models.Model):"]).
Proof.
  apply (declarations_in_order
           ["class B(models.Model):"; "    n = models.IntegerField()";
            "class A(models.Model):"]).
  reflexivity.
Defined.

(** X7: when some input line is taken as a class header by line 217 (once
    stripped it starts with [class] and ends with [Model):]) and line 225
    extracts the name [User] from it, the default [User] declaration is
    not generated, whatever the toggle, and likewise for [Group]: the
    [TableName] line of the default declaration is nowhere in the output.
    A header that line 217 does not take, such as
    [class User(AbstractUser):], does not count. *)
Theorem declared_replaces_default (in_lines : list string) (h u g : bool)
    (out errs : list string) :
  convert_lines in_lines h u g = Ok (out, errs) ->
  (existsb (declares "User") in_lines = true ->
   ~ In "func(User) TableName() string {" out) /\
  (existsb (declares "Group") in_lines = true ->
   ~ In "func(Group) TableName() string {" out).
Proof.
  intros H. apply convert_lines_ok in H. destruct H as (st & Hs & -> & _).
  destruct (finish_sends _ _ Hs) as [_ Hsh].
  apply scan_found in Hs. destruct Hs as [Hu Hg].
  cbn [initial found_user_table found_group_table orb] in Hu, Hg.
  destruct (finish_found st) as (Fu & Fg & _).
  assert (Hout : forall m,
             basic_line m = false -> is_type_line m = false ->
             ~ In m (out_lines (finish st))).
  { intros m Hb Hty Hin. unfold shaped in Hsh. rewrite Forall_forall in Hsh.
    destruct (Hsh _ Hin); congruence. }
  split; intros Hdecl Hin; apply in_app_or in Hin;
    (destruct Hin as [Hin|Hin];
     [|eapply Hout; [| |exact Hin]; reflexivity]);
    revert Hin; apply (count_occ_not_In string_dec);
    unfold out_prefix; rewrite Fu, Fg, Hu, Hg, Hdecl;
    destruct h, u, g, (got_custom_tables (finish st));
    try destruct (existsb (declares "Group") in_lines);
    try destruct (existsb (declares "User") in_lines);
    vm_compute; reflexivity.
Qed.

Lemma declared_replaces_default_witness :
  let inp := ["class User(AbstractModel):"; "    nick = models.CharField()"] in
  existsb (declares "User") inp = true /\
  exists out errs,
    convert_lines inp false true true = Ok (out, errs) /\
    ~ In "func(User) TableName() string {" out.
Proof.
  cbv zeta. split; [reflexivity|].
  match eval vm_compute in
        (convert_lines
           ["class User(AbstractModel):"; "    nick = models.CharField()"]
           false true true) with
  | Ok (?o, ?e) =>
      exists o, e; split; [vm_compute; reflexivity|];
      apply (declared_replaces_default
               ["class User(AbstractModel):"; "    nick = models.CharField()"]
               false true true o e);
      vm_compute; reflexivity
  end.
Defined.

(** ** More field lines *)



Lemma def_closed_default raw st :
  default_in_force st -> default_in_force (def_closed raw st).
Proof.
  unfold def_closed. destruct (is_def raw && in_model_def st); [|auto].
  intros _. unfold default_in_force, close_and_reset.
  destruct (close_keeps_fields (set_in_model_def false st)) as (_ & _ & Hi & _).
  cbn [in_model_def set_current_model set_last_model_closed].
  rewrite Hi. discriminate.
Qed.

Lemma step_default_in_force st raw st' :
  default_in_force st -> step st raw = Ok st' -> default_in_force st'.
Proof.
  intros Hq H. apply step_cases in H. cbv zeta in H.
  pose proof (def_closed_default raw st Hq) as H1.
  set (st1 := def_closed raw st) in *.
  destruct H as [(_ & name & _ & ->)|[(_ & _ & rhs & ->)|(_ & a & e & -> & _)]].
  - unfold default_in_force, advance.
    cbn [in_model_def custom_table_name table_name model_name set_lines
         set_prev_line].
    destruct (open_model_fields name
                (set_last_model_closed false
                   (set_in_model_def true
                      (if in_model_def st1 then close_and_reset st1 else st1))))
      as (_ & _ & Hn & _ & _ & _ & Ht & _).
    now rewrite Hn, Ht.
  - intros _ Hc. discriminate Hc.
  - exact H1.
Qed.

Lemma scan_default_in_force st in_lines st' :
  default_in_force st -> scan st in_lines = Ok st' -> default_in_force st'.
Proof.
  revert st. induction in_lines as [|raw rest IH]; intros st Hq H.
  - now injection H as <-.
  - cbn [scan] in H. apply bind_ok in H. destruct H as (s & Hs & H).
    apply (IH s); [|assumption]. now apply (step_default_in_force st raw).
Qed.

(** X9: a [ManyToManyField] line that the primary-key test of line 257
    does not take adds two lines: a note that the join table is a guess,
    then a slice field [<Field>] of the related text whose tag names the
    join table [<table>_<field>] and the join key [<table>_id], where
    [<table>] is the table name in force on that line; nothing else
    changes.  As long as no [db_table] line was taken for the declaration,
    that name is the default one, [app_<name in lower case>s]. *)
Theorem many_to_many_line (pre : list string) (st : state) (raw : string) :
  scan initial pre = Ok st ->
  in_model_def st = true ->
  is_field_line (prev_line st) raw = true ->
  is_pk_line (strip raw) = false ->
  field_type_of (split "=" (strip raw)) = Some "ManyToManyField" ->
  let l := strip raw in
  let f := field_name_of l in
  (exists st',
      step st raw = Ok st' /\
      line_read l
        [tab ++ "\ !! NOTE: m2m key relationship/name may not work";
         tab ++ capitalize f ++ tab ++ tab ++ "[]" ++
         fkeymodel_of (split "=" l) ++ tab ++ "`gorm:" ++ dq ++
         "many2many:" ++ table_name st ++ "_" ++ f ++
         ";joinForeignKey:" ++ table_name st ++ "_id" ++ dq ++ "`"]
        [] st st') /\
  (custom_table_name st = false ->
   table_name st = "app_" ++ lower (model_name st) ++ "s").
Proof.
  intros Hs Hin Hfl Hpk Hft l f. split.
  - eexists. split.
    + rewrite (step_field_line _ _ Hin Hfl).
      rewrite (translate_field_typed _ _ _ Hpk Hft).
      cbn [TYPE_MAP String.eqb Ascii.eqb Bool.eqb bind]. reflexivity.
    + apply line_read_two.
  - intros Hc.
    assert (Hq : default_in_force initial) by discriminate.
    exact (scan_default_in_force _ _ _ Hq Hs Hin Hc).
Qed.

Lemma many_to_many_line_witness :
  let st := mkState [] ["type Foo struct {"] false false true "Foo" "app_foos"
              "app_foos" false false false "class Foo(models.Model):" 2 [] in
  (exists st',
      step st "    tags = models.ManyToManyField(Tag, blank=True)" = Ok st' /\
      line_read "tags = models.ManyToManyField(Tag, blank=True)"
        [tab ++ "\ !! NOTE: m2m key relationship/name may not work";
         tab ++ "Tags" ++ tab ++ tab ++ "[]Tag" ++ tab ++ "`gorm:" ++ dq ++
         "many2many:app_foos_tags;joinForeignKey:app_foos_id" ++ dq ++ "`"]
        [] st st') /\
  (custom_table_name st = false -> table_name st = "app_foos").
Proof.
  apply (many_to_many_line ["class Foo(models.Model):"]
           (mkState [] ["type Foo struct {"] false false true "Foo" "app_foos"
              "app_foos" false false false "class Foo(models.Model):" 2 [])
           "    tags = models.ManyToManyField(Tag, blank=True)"); reflexivity.
Defined.

(** X10: a field line that the primary-key test of line 257 does not take
    and whose constructor is neither in the type table nor a relationship
    is skipped in silence when it mentions [getLogger] or when the line
    before ends in a comma or a backslash; otherwise one error and one
    comment line are recorded, both with the 1-based number of the line in
    the input.  Nothing else changes. *)
Theorem unknown_constructor_line (pre : list string) (st : state)
    (raw ft : string) :
  scan initial pre = Ok st ->
  in_model_def st = true ->
  is_field_line (prev_line st) raw = true ->
  is_pk_line (strip raw) = false ->
  field_type_of (split "=" (strip raw)) = Some ft ->
  TYPE_MAP ft = None ->
  ~ In ft ["ForeignKey"; "ManyToManyField"; "OneToOneField"] ->
  let l := strip raw in
  let n := str_of_nat (List.length pre + 1) in
  let skipped :=
    contains "getLogger" l || endswith "," (prev_line st) ||
    endswith "\" (prev_line st) in
  (skipped = true ->
   exists st', step st raw = Ok st' /\ line_read l [] [] st st') /\
  (skipped = false ->
   exists st',
     step st raw = Ok st' /\
     line_read l
       [tab ++ "// !! unknown type in line " ++ n ++ ", original: " ++ l]
       [n ++ ": Unknown/unhandled line: " ++ ft]
       st st').
Proof.
  intros Hs Hin Hfl Hpk Hft Hmap Hkind l n skipped.
  assert (Hn : str_of_nat (lines st) = n).
  { unfold n. apply scan_lines in Hs. rewrite Hs. cbn [initial lines].
    f_equal. lia. }
  assert (Hk : String.eqb ft "ForeignKey" = false /\
               String.eqb ft "ManyToManyField" = false /\
               String.eqb ft "OneToOneField" = false).
  { repeat split; apply String.eqb_neq; intros ->; apply Hkind; cbn; auto. }
  destruct Hk as (K1 & K2 & K3).
  rewrite (step_field_line _ _ Hin Hfl).
  rewrite (translate_field_typed _ _ _ Hpk Hft), Hmap. cbv zeta.
  rewrite K1, K2, K3, Hn. fold l. unfold skipped.
  destruct (contains "getLogger" l); cbn [orb].
  { split; [|discriminate]. intros _. eexists.
    split; [reflexivity|apply line_read_none]. }
  destruct (endswith "," (prev_line st) || endswith "\" (prev_line st)).
  - split; [|discriminate]. intros _. eexists.
    split; [reflexivity|apply line_read_none].
  - split; [discriminate|]. intros _. eexists.
    split; [reflexivity|apply line_read_error].
Qed.

Lemma unknown_constructor_line_witness :
  let st := mkState [] ["type Foo struct {"] false false true "Foo" "app_foos"
              "app_foos" false false false "class Foo(models.Model):" 2 [] in
  let raw := "    price = models.DecimalField(max_digits=8)" in
  let l := strip raw in
  let n := str_of_nat (1 + 1) in
  let skipped :=
    contains "getLogger" l || endswith "," (prev_line st) ||
    endswith "\" (prev_line st) in
  (skipped = true ->
   exists st', step st raw = Ok st' /\ line_read l [] [] st st') /\
  (skipped = false ->
   exists st',
     step st raw = Ok st' /\
     line_read l
       [tab ++ "// !! unknown type in line " ++ n ++ ", original: " ++ l]
       [n ++ ": Unknown/unhandled line: " ++ "DecimalField"]
       st st').
Proof.
  apply (unknown_constructor_line ["class Foo(models.Model):"]
           (mkState [] ["type Foo struct {"] false false true "Foo" "app_foos"
              "app_foos" false false false "class Foo(models.Model):" 2 [])
           "    price = models.DecimalField(max_digits=8)" "DecimalField");
    try reflexivity.
  cbn. intros [H|[H|[H|[]]]]; discriminate H.
Defined.



(** ** Errors and their markers *)

Lemma def_closed_open raw st :
  in_model_def (def_closed raw st) = true -> def_closed raw st = st.
Proof.
  unfold def_closed. destruct (is_def raw && in_model_def st); [|reflexivity].
  unfold close_and_reset.
  destruct (close_keeps_fields (set_in_model_def false st)) as (_ & _ & Hi & _).
  cbn [in_model_def set_current_model set_last_model_closed].
  rewrite Hi. discriminate.
Qed.

Lemma def_closed_errors raw st : errors (def_closed raw st) = errors st.
Proof.
  unfold def_closed. destruct (is_def raw && in_model_def st); [|reflexivity].
  unfold close_and_reset.
  destruct (close_keeps_fields (set_in_model_def false st))
    as (_ & _ & _ & _ & _ & _ & _ & _ & _ & He).
  cbn [errors set_current_model set_last_model_closed]. now rewrite He.
Qed.

Lemma translate_field_marks st l st' :
  translate_field st l = Ok st' ->
  errors st' = errors st \/
  exists e x,
    errors st' = (errors st ++ [e])%list /\
    current_model st' = (current_model st ++ [x])%list /\
    startswith (tab ++ "// !! ") x = true /\
    startswith (str_of_nat (lines st) ++ ": ") e = true.
Proof.
  unfold translate_field.
  assert (Hmark : forall a b, startswith (a ++ ": ") (a ++ ": " ++ b) = true).
  { intros a b. rewrite <- append_assoc. apply startswith_append. }
  repeat match goal with
    | |- context [match ?c with _ => _ end] => destruct c
    end;
    try discriminate; intros H; injection H as <-;
    try (left; reflexivity);
    right; do 2 eexists; cbn [errors current_model append_model append_error
                               set_current_model set_errors];
    (split; [reflexivity|]); (split; [reflexivity|]);
    (split; [reflexivity|apply Hmark]).
Qed.

(** X12: one step records at most one error, and never an error alone:
    with it, one comment line that starts with [// !!] goes to the buffer
    of the declaration, and the error starts with the number of the
    line. *)
Theorem error_with_marker (st : state) (raw : string) (st' : state) :
  step st raw = Ok st' ->
  errors st' = errors st \/
  exists e x,
    errors st' = (errors st ++ [e])%list /\
    current_model st' = (current_model st ++ [x])%list /\
    startswith (tab ++ "// !! ") x = true /\
    startswith (str_of_nat (lines st) ++ ": ") e = true.
Proof.
  intros H. unfold step in H. fold (def_closed raw st) in H. cbv zeta in H.
  pose proof (def_closed_errors raw st) as He.
  pose proof (def_closed_open raw st) as Hopen.
  set (st1 := def_closed raw st) in *.
  apply bind_ok in H. destruct H as (s & H & E). injection E as <-.
  unfold advance. cbn [errors current_model set_lines set_prev_line].
  destruct (is_class_header (strip raw)).
  { left. destruct (model_name_of (strip raw)) as [name|]; [|discriminate].
    injection H as <-.
    destruct (open_model_fields name
                (set_last_model_closed false
                   (set_in_model_def true
                      (if in_model_def st1 then close_and_reset st1 else st1))))
      as (_ & _ & _ & _ & _ & _ & _ & _ & _ & _ & Herr).
    rewrite Herr. cbn [errors set_last_model_closed set_in_model_def].
    destruct (in_model_def st1); [|assumption].
    unfold close_and_reset.
    cbn [errors set_current_model set_last_model_closed].
    destruct (close_keeps_fields st1) as (_ & _ & _ & _ & _ & _ & _ & _ & _ & Hc).
    now rewrite Hc. }
  destruct (in_model_def st1) eqn:Hin; [|left; now injection H as <-].
  rewrite (Hopen eq_refl) in *.
  destruct (is_db_table (prev_line st) (strip raw)).
  { left. destruct (nth_error (split "=" (strip raw)) 1); [|discriminate].
    now injection H as <-. }
  destruct (startswith (dq ++ dq ++ dq) (strip raw));
    [left; now injection H as <-|].
  destruct (startswith "#" (strip raw)); [left; now injection H as <-|].
  destruct (contains "=" (strip raw) && contains "models." (strip raw));
    [|left; now injection H as <-].
  now apply translate_field_marks in H.
Qed.

Lemma error_with_marker_witness :
  let st := mkState [] ["type Foo struct {"] false false true "Foo" "app_foos"
              "app_foos" false false false "class Foo(models.Model):" 2 [] in
  let st' := advance "price = models.DecimalField()"
               (append_model
                  (tab ++ "// !! unknown type in line 2, original: " ++
                   "price = models.DecimalField()")
                  (append_error "2: Unknown/unhandled line: DecimalField" st)) in
  errors st' = errors st \/
  exists e x,
    errors st' = (errors st ++ [e])%list /\
    current_model st' = (current_model st ++ [x])%list /\
    startswith (tab ++ "// !! ") x = true /\
    startswith (str_of_nat (lines st) ++ ": ") e = true.
Proof.
  apply (error_with_marker
           (mkState [] ["type Foo struct {"] false false true "Foo" "app_foos"
              "app_foos" false false false "class Foo(models.Model):" 2 [])
           "    price = models.DecimalField()").
  reflexivity.
Defined.

(** ** Comments and docstrings *)

Lemma remove_char_clears c s :
  contains (String c "") (replace (String c "") "" s) = false.
Proof.
  unfold replace. induction s as [|x s IH]; [reflexivity|].
  cbn [replace_from startswith String.length Nat.sub].
  rewrite andb_true_r. destruct (Ascii.eqb c x) eqn:E.
  - cbn [append]. exact IH.
  - cbn [contains startswith]. now rewrite E, IH.
Qed.

Lemma replace_from_keeps_absent d old new k s :
  contains (String d "") new = false ->
  contains (String d "") s = false ->
  contains (String d "") (replace_from old new k s) = false.
Proof.
  intros Hn. revert k. induction s as [|x s IH]; intros k Hs; [reflexivity|].
  apply contains_char_cons in Hs. destruct Hs as [Hx Hs].
  cbn [replace_from]. destruct k as [|k]; [|now apply IH].
  destruct (startswith old (String x s)).
  - rewrite contains_char_append, Hn. now apply IH.
  - cbn [contains startswith]. rewrite andb_true_r, Ascii.eqb_sym, Hx.
    now apply IH.
Qed.






(** ** The explicit table name *)

Lemma unquote_no_quotes rhs :
  contains "'" (unquote rhs) = false /\ contains dq (unquote rhs) = false.
Proof.
  unfold unquote. split; [apply remove_char_clears|].
  apply replace_from_keeps_absent; [reflexivity|].
  apply (remove_char_clears (ascii_of_nat 34)).
Qed.

Lemma step_unquoted st raw st' :
  unquoted st -> step st raw = Ok st' -> unquoted st'.
Proof.
  intros Hq H. apply step_cases in H. cbv zeta in H.
  assert (H1 : unquoted (def_closed raw st)).
  { unfold def_closed. destruct (is_def raw && in_model_def st); [|assumption].
    unfold unquoted, close_and_reset.
    destruct (close_keeps_fields (set_in_model_def false st))
      as (_ & _ & _ & _ & _ & Ht & Hc & _).
    cbn [custom_table_name table_name set_current_model set_last_model_closed].
    rewrite Ht, Hc. exact Hq. }
  set (st1 := def_closed raw st) in *.
  destruct H as [(_ & name & _ & ->)|[(_ & _ & rhs & ->)|(_ & a & e & -> & _)]].
  - unfold unquoted, advance.
    cbn [custom_table_name table_name set_lines set_prev_line].
    destruct (open_model_fields name
                (set_last_model_closed false
                   (set_in_model_def true
                      (if in_model_def st1 then close_and_reset st1 else st1))))
      as (_ & _ & _ & _ & _ & _ & _ & Hc & _).
    rewrite Hc. discriminate.
  - intros _. cbn. apply unquote_no_quotes.
  - exact H1.
Qed.

(** X14: an explicit table name never holds a quote mark, single or
    double: line 243 removes them all.  Other characters of the right-hand
    side, a backslash or a trailing comment among them, stay in the name
    (the example below). *)
Theorem explicit_name_unquoted (in_lines : list string) (st : state) :
  scan initial in_lines = Ok st ->
  custom_table_name st = true ->
  contains "'" (table_name st) = false /\ contains dq (table_name st) = false.
Proof.
  assert (H : forall ls s s', unquoted s -> scan s ls = Ok s' -> unquoted s').
  { induction ls as [|raw rest IH]; intros s s' Hq Hs.
    - now injection Hs as <-.
    - cbn [scan] in Hs. apply bind_ok in Hs. destruct Hs as (m & Hm & Hs).
      apply (IH m); [|assumption]. now apply (step_unquoted s raw). }
  intros Hs. apply (H in_lines initial st); [|assumption]. discriminate.
Qed.

Lemma explicit_name_unquoted_witness :
  contains "'" "users_table" = false /\ contains dq "users_table" = false.
Proof.
  apply (explicit_name_unquoted
           ["class Foo(models.Model):"; "    class Meta:";
            "        db_table = u" ++ dq ++ "user's_table" ++ dq]
           (mkState [] ["type Foo struct {"] false true true "Foo" "app_foos"
              "users_table" true false false
              ("db_table = u" ++ dq ++ "user's_table" ++ dq) 4 []));
    reflexivity.
Defined.

(** Line 243 removes the quote marks and nothing else. *)
Example unquote_keeps_rest :
  unquote " 'x' \" = "x \" /\ unquote " 'x'  # old" = "x  # old".
Proof. split; reflexivity. Qed.

(** ** The text that is written *)

(** ['\n'.join(s.split('\n'))] is [s]. *)
Lemma join_split c s : join (String c "") (split c s) = s.
Proof.
  induction s as [|x s IH]; [reflexivity|]. cbn [split].
  destruct (split_nonempty c s) as (h & t & E). rewrite E in *.
  destruct (Ascii.eqb x c) eqn:Ex.
  - apply Ascii.eqb_eq in Ex. subst x. rewrite <- IH. reflexivity.
  - destruct t as [|h' t]; rewrite <- IH; reflexivity.
Qed.

Lemma join_app sep xs ys :
  xs <> [] ->
  join sep (xs ++ ys) =
  join sep xs ++ match ys with [] => "" | _ => sep ++ join sep ys end.
Proof.
  induction xs as [|x xs IH]; [congruence|]. intros _.
  destruct xs as [|x' xs].
  - cbn [app join]. destruct ys; [now rewrite append_nil_r|reflexivity].
  - change ((x :: x' :: xs) ++ ys)%list with (x :: (x' :: xs) ++ ys)%list.
    change (join sep (x :: (x' :: xs) ++ ys))
      with (x ++ sep ++ join sep ((x' :: xs) ++ ys)).
    rewrite IH by discriminate.
    change (join sep (x :: x' :: xs)) with (x ++ sep ++ join sep (x' :: xs)).
    now rewrite !append_assoc.
Qed.

Lemma endswith_append a p : endswith p (a ++ p) = true.
Proof.
  induction a as [|x a IH]; cbn [append].
  - destruct p; cbn [endswith]; now rewrite String.eqb_refl.
  - cbn [endswith]. rewrite IH. apply orb_true_r.
Qed.

Lemma startswith_append_more p r t :
  startswith p ((p ++ r) ++ t) = true.
Proof. rewrite append_assoc. apply startswith_append. Qed.

(** X15: with [include_helpers] on, the text written starts with the
    import block, character for character, and ends with the usage
    example; this holds for every input on which the run reaches the end. *)
Theorem helpers_frame_output (in_lines : list string) (u g : bool)
    (text : string) (errfile : option string) :
  convert in_lines true u g = Ok (text, errfile) ->
  startswith IMPORTS text = true /\ endswith HELPER_REF text = true.
Proof.
  unfold convert. intros H. apply bind_ok in H.
  destruct H as ([out errs] & Hc & H). injection H as <- _.
  apply convert_lines_ok in Hc. destruct Hc as (st & _ & -> & _).
  cbn [fst]. split; [|apply endswith_append].
  unfold out_prefix. rewrite <- !app_assoc.
  rewrite join_app.
  - change nl with (String newline ""). rewrite join_split.
    apply startswith_append_more.
  - destruct (split_nonempty newline IMPORTS) as (h & t & ->). discriminate.
Qed.

Lemma helpers_frame_output_witness :
  startswith IMPORTS
    (join nl (scaffolding true false false ++ ["}"; ""]) ++ HELPER_REF) = true /\
  endswith HELPER_REF
    (join nl (scaffolding true false false ++ ["}"; ""]) ++ HELPER_REF) = true.
Proof.
  apply (helpers_frame_output [] false false _ None). reflexivity.
Defined.

(** ** Scalar fields and relationship calls *)

(** X16: a field line that the primary-key test of line 257 does not take
    and whose constructor is in the type table adds exactly one line: the
    capitalized field name, the Go type that the table gives for the
    constructor, and a column tag with the field name as written; nothing
    else changes. *)
Theorem scalar_field_line (st : state) (raw ctor gotype : string) :
  in_model_def st = true ->
  is_field_line (prev_line st) raw = true ->
  is_pk_line (strip raw) = false ->
  field_type_of (split "=" (strip raw)) = Some ctor ->
  TYPE_MAP ctor = Some gotype ->
  In (ctor, gotype)
    [("BooleanField", "bool"); ("IntegerField", "int");
     ("BigIntegerField", "int64"); ("CharField", "string");
     ("TextField", "string"); ("DateTimeField", "time.Time");
     ("NullBooleanField", "sql.NullBool"); ("BinaryField", "byte[]")] /\
  exists st',
    step st raw = Ok st' /\
    line_read (strip raw)
      [tab ++ capitalize (field_name_of (strip raw)) ++ tab ++ tab ++
       gotype ++ tab ++ "`gorm:" ++ dq ++ "column:" ++
       field_name_of (strip raw) ++ dq ++ "`"]
      [] st st'.
Proof.
  intros Hin Hfl Hpk Hft Hmap. split.
  - unfold TYPE_MAP in Hmap.
    repeat match type of Hmap with
      | (if String.eqb ?a ?b then _ else _) = _ =>
          destruct (String.eqb_spec a b) as [->|_];
          [injection Hmap as <-; cbn; tauto|]
      end.
    discriminate.
  - eexists. split.
    + rewrite (step_field_line _ _ Hin Hfl).
      rewrite (translate_field_typed _ _ _ Hpk Hft), Hmap. reflexivity.
    + apply line_read_one.
Qed.

Lemma scalar_field_line_witness :
  let st := open_model "Foo" (set_in_model_def true initial) in
  In ("DateTimeField", "time.Time")
    [("BooleanField", "bool"); ("IntegerField", "int");
     ("BigIntegerField", "int64"); ("CharField", "string");
     ("TextField", "string"); ("DateTimeField", "time.Time");
     ("NullBooleanField", "sql.NullBool"); ("BinaryField", "byte[]")] /\
  exists st',
    step st "    last_login = models.DateTimeField(null=True)" = Ok st' /\
    line_read "last_login = models.DateTimeField(null=True)"
      [tab ++ "Last_login" ++ tab ++ tab ++ "time.Time" ++ tab ++
       "`gorm:" ++ dq ++ "column:last_login" ++ dq ++ "`"]
      [] st st'.
Proof.
  apply (scalar_field_line
           (open_model "Foo" (set_in_model_def true initial))
           "    last_login = models.DateTimeField(null=True)"
           "DateTimeField" "time.Time"); reflexivity.
Defined.

Lemma contains_char_step c x s :
  contains (String c "") (String x s) =
  Ascii.eqb x c || contains (String c "") s.
Proof. cbn [contains startswith]. now rewrite andb_true_r, Ascii.eqb_sym. Qed.

Lemma lstrip_keeps_absent c p s :
  contains (String c "") s = false ->
  contains (String c "") (lstrip_by p s) = false.
Proof.
  induction s as [|a s IH]; [auto|]. intros H. cbn [lstrip_by].
  destruct (p a); [|assumption].
  apply contains_char_cons in H. now apply IH.
Qed.

Lemma rstrip_keeps_absent c p s :
  contains (String c "") s = false ->
  contains (String c "") (rstrip_by p s) = false.
Proof.
  induction s as [|a s IH]; [auto|]. intros H. cbn [rstrip_by].
  apply contains_char_cons in H. destruct H as [Ha Hs].
  specialize (IH Hs). destruct (rstrip_by p s) as [|b r].
  - destruct (p a); [reflexivity|]. now rewrite contains_char_step, Ha.
  - now rewrite contains_char_step, Ha.
Qed.

Lemma strip_by_keeps_absent c p s :
  contains (String c "") s = false ->
  contains (String c "") (strip_by p s) = false.
Proof.
  intros H. unfold strip_by. now apply rstrip_keeps_absent, lstrip_keeps_absent.
Qed.

(** The pieces of a split hold no character that the text does not hold. *)
Lemma split_pieces_keep_absent d c s k x :
  contains (String d "") s = false ->
  nth_error (split c s) k = Some x ->
  contains (String d "") x = false.
Proof.
  revert k x. induction s as [|a s IH]; intros k x H; cbn [split].
  - destruct k as [|[|k]]; cbn; try discriminate. now intros [= <-].
  - apply contains_char_cons in H. destruct H as [Ha Hs].
    destruct (Ascii.eqb a c).
    + destruct k as [|k]; cbn [nth_error]; [now intros [= <-]|now apply IH].
    + destruct (split_nonempty c s) as (h & t & E). rewrite E in *.
      destruct k as [|k]; cbn [nth_error].
      * intros [= <-]. rewrite contains_char_step, Ha.
        now apply (IH 0).
      * intros Hx. now apply (IH (S k)).
Qed.

Lemma split_head_no_sep c s :
  contains (String c "") (hd "" (split c s)) = false.
Proof.
  destruct (split_nonempty c s) as (h & t & E).
  apply (split_pieces_no_sep c s 0). now rewrite E.
Qed.

(** X17: the text that line 268 takes as the related type of a
    relationship call never holds [=], [.], [(] or [,], whatever the line
    is; a first argument that holds one of them is therefore not written
    whole: the quoted dotted path ['auth.User'] gives ['auth] and the
    keyword argument [to=Editor] gives [to] (the examples below). *)
Theorem related_name_cut (l : string) :
  let related := fkeymodel_of (split "=" l) in
  contains "=" related = false /\ contains "." related = false /\
  contains "(" related = false /\ contains "," related = false.
Proof.
  cbv zeta. unfold fkeymodel_of, constructor_call.
  destruct (nth_error (split "=" l) 1) as [rhs|] eqn:E1;
    [|now repeat split].
  destruct (nth_error (split "." (strip rhs)) 1) as [call|] eqn:E2;
    [|now repeat split].
  destruct (nth_error (split "(" call) 1) as [args|] eqn:E3;
    [|now repeat split].
  assert (Heq : contains "=" call = false).
  { apply (split_pieces_keep_absent _ _ _ _ _ (strip_by_keeps_absent _ _ _
             (split_pieces_no_sep _ _ _ _ E1)) E2). }
  pose proof (split_pieces_no_sep _ _ _ _ E2) as Hdot.
  pose proof (split_pieces_no_sep _ _ _ _ E3) as Hpar.
  pose proof (split_pieces_keep_absent _ _ _ _ _ Heq E3) as Heq'.
  pose proof (split_pieces_keep_absent _ _ _ _ _ Hdot E3) as Hdot'.
  unfold strip_chars, strip.
  repeat split; repeat apply strip_by_keeps_absent.
  - now apply split_head_part, strip_by_keeps_absent.
  - now apply split_head_part, strip_by_keeps_absent.
  - now apply split_head_part, strip_by_keeps_absent.
  - apply split_head_no_sep.
Qed.

(** The two calls above, and a plain one. *)
Example fkeymodel_cut_examples :
  fkeymodel_of
    (split "=" "owner = models.ForeignKey('auth.User', on_delete=models.CASCADE)")
  = "'auth" /\
  fkeymodel_of
    (split "=" "editor = models.ForeignKey(to=Editor, on_delete=models.CASCADE)")
  = "to" /\
  fkeymodel_of (split "=" "author = models.OneToOneField(Author)") = "Author".
Proof. repeat split; reflexivity. Qed.

(** ** Input without any [db_table] *)

Lemma def_closed_custom raw st :
  got_custom_tables (def_closed raw st) = got_custom_tables st /\
  custom_table_name (def_closed raw st) = custom_table_name st.
Proof.
  unfold def_closed. destruct (is_def raw && in_model_def st); [|now split].
  unfold close_and_reset.
  destruct (close_keeps_fields (set_in_model_def false st))
    as (_ & Hg & _ & _ & _ & _ & Hc & _).
  cbn [got_custom_tables custom_table_name set_current_model
       set_last_model_closed]. now rewrite Hg, Hc.
Qed.

Lemma step_without_db_table st raw st' :
  contains "db_table" (strip raw) = false ->
  step st raw = Ok st' ->
  got_custom_tables st' = got_custom_tables st /\
  (custom_table_name st = false -> custom_table_name st' = false).
Proof.
  intros Hno H. unfold step in H. fold (def_closed raw st) in H.
  cbv zeta in H. destruct (def_closed_custom raw st) as [Hg1 Hc1].
  set (st1 := def_closed raw st) in *.
  apply bind_ok in H. destruct H as (s & H & E). injection E as <-.
  unfold advance.
  cbn [got_custom_tables custom_table_name set_lines set_prev_line].
  rewrite <- Hg1, <- Hc1.
  destruct (is_class_header (strip raw)).
  { destruct (model_name_of (strip raw)) as [name|]; [|discriminate].
    injection H as <-.
    destruct (open_model_fields name
                (set_last_model_closed false
                   (set_in_model_def true
                      (if in_model_def st1 then close_and_reset st1 else st1))))
      as (_ & _ & _ & _ & _ & _ & _ & Hc & _ & Hg & _).
    rewrite Hc, Hg.
    cbn [got_custom_tables set_last_model_closed set_in_model_def].
    split; [|reflexivity]. destruct (in_model_def st1); [|reflexivity].
    unfold close_and_reset.
    cbn [got_custom_tables set_current_model set_last_model_closed].
    now destruct (close_keeps_fields st1) as (_ & -> & _). }
  destruct (in_model_def st1); [|injection H as <-; now split].
  unfold is_db_table in H. rewrite Hno in H. cbn [andb] in H.
  destruct (startswith (dq ++ dq ++ dq) (strip raw));
    [injection H as <-; now split|].
  destruct (startswith "#" (strip raw)); [injection H as <-; now split|].
  destruct (contains "=" (strip raw) && contains "models." (strip raw));
    [|injection H as <-; now split].
  apply translate_field_grow in H. destruct H as (a & e & -> & _). now split.
Qed.

Lemma step_no_func st raw st' :
  custom_table_name st = false ->
  Forall (fun x => startswith "func (" x = false) (out_lines st) ->
  Forall (fun x => startswith "func (" x = false) (current_model st) ->
  step st raw = Ok st' ->
  Forall (fun x => startswith "func (" x = false) (out_lines st') /\
  Forall (fun x => startswith "func (" x = false) (current_model st').
Proof.
  intros Hc Hout Hcm H. apply step_cases in H. cbv zeta in H.
  assert (Hclose : forall s,
             custom_table_name s = false ->
             Forall (fun x => startswith "func (" x = false) (out_lines s) ->
             Forall (fun x => startswith "func (" x = false) (current_model s) ->
             Forall (fun x => startswith "func (" x = false)
               (out_lines (close_model_def s))).
  { intros s Hs Ho Hm. rewrite close_out_lines, Hs.
    repeat (apply Forall_app; split); auto. }
  assert (H1 : custom_table_name (def_closed raw st) = false /\
               Forall (fun x => startswith "func (" x = false)
                 (out_lines (def_closed raw st)) /\
               Forall (fun x => startswith "func (" x = false)
                 (current_model (def_closed raw st))).
  { destruct (def_closed_custom raw st) as [_ Hc1]. rewrite Hc1.
    split; [assumption|]. unfold def_closed.
    destruct (is_def raw && in_model_def st); [|now split].
    unfold close_and_reset.
    cbn [out_lines current_model set_current_model set_last_model_closed].
    split; [|constructor]. now apply Hclose. }
  set (st1 := def_closed raw st) in *. destruct H1 as (Hc1 & Ho1 & Hm1).
  destruct H as [(_ & name & _ & ->)|[(_ & _ & rhs & ->)|(_ & a & e & -> & Ha & _)]].
  - destruct (open_model_fields name
                (set_last_model_closed false
                   (set_in_model_def true
                      (if in_model_def st1 then close_and_reset st1 else st1))))
      as (Hcm' & Hout' & _).
    unfold advance. cbn [out_lines current_model set_lines set_prev_line].
    rewrite Hcm', Hout'.
    cbn [out_lines current_model set_last_model_closed set_in_model_def].
    destruct (in_model_def st1).
    + unfold close_and_reset.
      cbn [out_lines current_model set_current_model set_last_model_closed].
      split; [now apply Hclose|now repeat constructor].
    + split; [assumption|]. apply Forall_app. split; [assumption|].
      now repeat constructor.
  - cbn. now split.
  - cbn. split; [assumption|]. apply Forall_app. split; [assumption|].
    revert Ha. apply Forall_impl. intros x Hx.
    apply startswith_split in Hx. now destruct Hx as (r & ->).
Qed.

Lemma scan_without_db_table st in_lines st' :
  existsb (fun raw => contains "db_table" (strip raw)) in_lines = false ->
  custom_table_name st = false ->
  Forall (fun x => startswith "func (" x = false) (out_lines st) ->
  Forall (fun x => startswith "func (" x = false) (current_model st) ->
  scan st in_lines = Ok st' ->
  got_custom_tables st' = got_custom_tables st /\
  custom_table_name st' = false /\
  Forall (fun x => startswith "func (" x = false) (out_lines st') /\
  Forall (fun x => startswith "func (" x = false) (current_model st').
Proof.
  revert st. induction in_lines as [|raw rest IH]; intros st Hno Hc Ho Hm H.
  - injection H as <-. now repeat split.
  - cbn [existsb] in Hno. apply orb_false_elim in Hno. destruct Hno as [Hr Hno].
    cbn [scan] in H. apply bind_ok in H. destruct H as (s & Hs & H).
    destruct (step_without_db_table _ _ _ Hr Hs) as [Hg Hc'].
    destruct (step_no_func _ _ _ Hc Ho Hm Hs) as [Ho' Hm'].
    destruct (IH s Hno (Hc' Hc) Ho' Hm' H) as (Hg2 & Hrest).
    split; [congruence|assumption].
Qed.

Lemma before_space_inj n m a b :
  contains " " n = false -> contains " " m = false ->
  n ++ String " " a = m ++ String " " b -> n = m /\ a = b.
Proof.
  revert m. induction n as [|c n IH]; intros [|d m] Hn Hm E;
    cbn [append] in E.
  - injection E as ->. now split.
  - injection E as <- _. apply contains_char_cons in Hm.
    destruct Hm as [Hm _]. discriminate.
  - injection E as -> _. apply contains_char_cons in Hn.
    destruct Hn as [Hn _]. discriminate.
  - injection E as -> E. apply contains_char_cons in Hn, Hm.
    destruct (IH m (proj2 Hn) (proj2 Hm) E) as [-> ->]. now split.
Qed.

(** X18: when no line of the input mentions [db_table], no explicit table
    name is ever in force: the output holds no [TableName] function for
    any declaration of the input (no line starts with [func (]) and the
    helper interface [Tabler] is not written. *)
Theorem without_db_table (in_lines : list string) (h u g : bool)
    (out errs : list string) :
  existsb (fun raw => contains "db_table" (strip raw)) in_lines = false ->
  convert_lines in_lines h u g = Ok (out, errs) ->
  Forall (fun x => startswith "func (" x = false) out /\
  ~ In "type Tabler interface {" out.
Proof.
  intros Hno H. apply convert_lines_ok in H. destruct H as (st & Hs & -> & _).
  destruct (scan_without_db_table initial in_lines st Hno eq_refl
              (Forall_nil _) (Forall_nil _) Hs) as (Hg & Hc & Ho & Hm).
  cbn [initial got_custom_tables] in Hg.
  destruct (finish_found st) as (_ & _ & Fg).
  assert (Hfin : Forall (fun x => startswith "func (" x = false)
                   (out_lines (finish st))).
  { unfold finish. destruct (negb (last_model_closed st)); [|assumption].
    rewrite close_out_lines, Hc. repeat (apply Forall_app; split); auto. }
  split.
  - apply Forall_app. split; [|assumption].
    apply Forall_forall. intros x Hx.
    assert (Hb : forallb (fun x => negb (startswith "func (" x))
                   (out_prefix h u g (finish st)) = true).
    { unfold out_prefix. rewrite Fg, Hg.
      destruct h, u, g, (found_user_table (finish st)),
        (found_group_table (finish st)); vm_compute; reflexivity. }
    rewrite forallb_forall in Hb. specialize (Hb x Hx).
    now apply negb_true_false in Hb.
  - intros Hin. apply in_app_or in Hin. destruct Hin as [Hin|Hin].
    + revert Hin. apply (count_occ_not_In string_dec).
      unfold out_prefix. rewrite Fg, Hg.
      destruct h, u, g, (found_user_table (finish st)),
        (found_group_table (finish st)); vm_compute; reflexivity.
    + destruct (finish_sends _ _ Hs) as [Hty _].
      assert (Hf : In "type Tabler interface {"
                     (filter is_type_line (out_lines (finish st))))
        by (apply filter_In; now split).
      rewrite Hty in Hf. apply in_map_iff in Hf.
      destruct Hf as (n & Hn & Hd).
      assert (Hsp : contains " " n = false).
      { unfold declared_names in Hd. apply in_flat_map in Hd.
        destruct Hd as (raw & _ & Hd).
        destruct (is_class_header (strip raw)); [|destruct Hd].
        destruct (model_name_of (strip raw)) as [n'|] eqn:En; [|destruct Hd].
        destruct Hd as [<-|[]]. now apply (model_name_no_space (strip raw)). }
      unfold type_line in Hn. cbn [append] in Hn. injection Hn as Hn.
      change (n ++ String " " "struct {" = "Tabler" ++ String " " "interface {")
        in Hn.
      apply before_space_inj in Hn; [|assumption|reflexivity].
      destruct Hn as [_ Hn]. discriminate Hn.
Qed.

Lemma without_db_table_witness :
  let inp := ["class Book(models.Model):";
              "    title = models.CharField(max_length=80)"] in
  exists out errs,
    convert_lines inp false false false = Ok (out, errs) /\
    Forall (fun x => startswith "func (" x = false) out /\
    ~ In "type Tabler interface {" out.
Proof.
  cbv zeta.
  match eval vm_compute in
        (convert_lines
           ["class Book(models.Model):";
            "    title = models.CharField(max_length=80)"]
           false false false) with
  | Ok (?o, ?e) =>
      exists o, e; split; [vm_compute; reflexivity|];
      apply (without_db_table
               ["class Book(models.Model):";
                "    title = models.CharField(max_length=80)"]
               false false false o e);
      vm_compute; reflexivity
  end.
Defined.
